(** * cardapio-vr: the order session of [src/pages/UserMenu.tsx]

    A shallow embedding of the public menu page: the field validators, the
    store-status clock, the cart, and the two-step order submission.  React
    state is an explicit record, every handler is a function on it, and the
    toasts and store queries a handler issues are returned as a list. *)

From Stdlib Require Import List Bool ZArith NArith Lia String Ascii Sorted.
Import ListNotations.

Set Implicit Arguments.

(* ===================================================================== *)
(** * JavaScript values *)
(* ===================================================================== *)

Module JS.

(** A JavaScript string is a sequence of UTF-16 code units. *)
Definition char := N.
Bind Scope N_scope with char.
Definition str := list char.

Definition str_eq_dec : forall a b : str, {a = b} + {a <> b} :=
  list_eq_dec N.eq_dec.

(** [a === b] on strings. *)
Definition str_eqb (a b : str) : bool :=
  if str_eq_dec a b then true else false.

(** A string is falsy exactly when it is empty: [!s]. *)
Definition falsy (s : str) : bool :=
  match s with [] => true | _ :: _ => false end.

(** An ASCII literal of the source as code units. *)
Definition lit (s : string) : str :=
  List.map N_of_ascii (list_ascii_of_string s).

(** A JavaScript number that is an integer, or NaN ([None]).  [undefined]
    coerces to NaN in arithmetic, so a missing array element read by a
    destructuring pattern is [None] as well. *)
Definition num := option Z.

Definition mul (a b : num) : num :=
  match a, b with Some x, Some y => Some (x * y)%Z | _, _ => None end.

Definition add (a b : num) : num :=
  match a, b with Some x, Some y => Some (x + y)%Z | _, _ => None end.

(** [a >= b] and [a <= b]: every comparison with NaN is false. *)
Definition geb (a b : num) : bool :=
  match a, b with Some x, Some y => (y <=? x)%Z | _, _ => false end.

Definition leb (a b : num) : bool :=
  match a, b with Some x, Some y => (x <=? y)%Z | _, _ => false end.

(** [s.split(sep)] for a one-character separator: the pieces between the
    separators, empty pieces included; the empty string gives one empty
    piece. *)
Fixpoint split (sep : char) (s : str) : list str :=
  match s with
  | [] => [[]]
  | c :: s' =>
      if N.eqb c sep then [] :: split sep s'
      else match split sep s' with
           | [] => [[c]]
           | p :: ps => (c :: p) :: ps
           end
  end.

Definition is_digit (c : char) : bool := (48 <=? c)%N && (c <=? 57)%N.

Definition digit_value (c : char) : Z := Z.of_N (c - 48).

(** [Number(s)] on the unsigned decimal integers: a string of ASCII digits
    is its value and the empty string is 0.  Signs, fractions, exponents,
    radix prefixes and surrounding white space are outside this embedding
    and read as NaN here; the theorems below only apply [Number] to the
    digit groups of a time of day. *)
Definition Number (s : str) : num :=
  if forallb is_digit s
  then Some (fold_left (fun acc c => (acc * 10 + digit_value c)%Z) s 0%Z)
  else None.

(** Element [i] of an array destructuring pattern. *)
Definition element (i : nat) (l : list num) : num :=
  match nth_error l i with Some v => v | None => None end.

End JS.

Import JS.

(* ===================================================================== *)
(** * Regular expressions *)
(* ===================================================================== *)

(** The patterns of the page are all of the shape [/^r$/] with [r] built
    from character classes, [*], [+] and [{n}]; [test] on such a pattern is
    a match of the whole string, decided here with derivatives. *)
Module RegExp.

Inductive re : Type :=
| Void : re
| Eps : re
| Class : (char -> bool) -> re
| Alt : re -> re -> re
| Cat : re -> re -> re
| Star : re -> re.

Definition Plus (r : re) : re := Cat r (Star r).

Fixpoint Repeat (n : nat) (r : re) : re :=
  match n with
  | O => Eps
  | S n' => Cat r (Repeat n' r)
  end.

Fixpoint nullable (r : re) : bool :=
  match r with
  | Void => false
  | Eps => true
  | Class _ => false
  | Alt a b => nullable a || nullable b
  | Cat a b => nullable a && nullable b
  | Star _ => true
  end.

Fixpoint deriv (c : char) (r : re) : re :=
  match r with
  | Void => Void
  | Eps => Void
  | Class p => if p c then Eps else Void
  | Alt a b => Alt (deriv c a) (deriv c b)
  | Cat a b =>
      if nullable a then Alt (Cat (deriv c a) b) (deriv c b)
      else Cat (deriv c a) b
  | Star a => Cat (deriv c a) (Star a)
  end.

Fixpoint matches (r : re) (s : str) : bool :=
  match s with
  | [] => nullable r
  | c :: s' => matches (deriv c r) s'
  end.

(** [/^r$/.test(s)] *)
Definition test (r : re) (s : str) : bool := matches r s.

(** ** Character classes *)

Definition in_range (lo hi c : char) : bool := (lo <=? c)%N && (c <=? hi)%N.

Definition code (c x : char) : bool := N.eqb c x.

(** [\d] *)
Definition digit : char -> bool := in_range 48 57.

(** [\s]: the white space and line terminator code units. *)
Definition space (c : char) : bool :=
  in_range 9 13 c || code c 32 || code c 160 || code c 5760
  || in_range 8192 8202 c || code c 8232 || code c 8233 || code c 8239
  || code c 8287 || code c 12288 || code c 65279.

(** [A-Za-zÀ-ÖØ-öø-ÿ] *)
Definition letter (c : char) : bool :=
  in_range 65 90 c || in_range 97 122 c
  || in_range 192 214 c || in_range 216 246 c || in_range 248 255 c.

(** [.,!?-] *)
Definition punct (c : char) : bool :=
  code c 46 || code c 44 || code c 33 || code c 63 || code c 45.

End RegExp.

Import RegExp.

(* ===================================================================== *)
(** * Field validators *)
(* ===================================================================== *)

(** [[A-Za-zÀ-ÖØ-öø-ÿ\s]] *)
Definition name_class (c : char) : bool := letter c || space c.

(** [[A-Za-zÀ-ÖØ-öø-ÿ0-9\s.,!?-]] *)
Definition observations_class (c : char) : bool :=
  letter c || digit c || space c || punct c.

Definition validateName (value : str) : bool :=
  test (Plus (Class name_class)) value.

Definition validateRegistration (value : str) : bool :=
  test (Repeat 4 (Class digit)) value.

Definition validateObservations (value : str) : bool :=
  test (Star (Class observations_class)) value.

(* ===================================================================== *)
(** * Session state *)
(* ===================================================================== *)

Record Dish := {
  dish_id : str;
  dish_name : str;
  description : str;
  image_url : str;
  day_of_week : Z
}.

Record CartItem := {
  item_id : str;
  item_name : str
}.

Record AdminSettings := {
  settings_id : str;
  opening_time : str;
  closing_time : str
}.

(** What the page reads from [new Date()]. *)
Record Date := {
  getHours : Z;
  getMinutes : Z;
  getDay : Z
}.

(** The [useState] cells of [UserMenu] that the order session uses. *)
Record state := {
  cart : list CartItem;
  settings : option AdminSettings;
  userName : str;
  registration : str;
  observations : str;
  isStoreOpen : bool;
  isCartOpen : bool;
  currentDay : Z
}.

Definition setCart (v : list CartItem) (st : state) : state :=
  {| cart := v; settings := settings st; userName := userName st;
     registration := registration st; observations := observations st;
     isStoreOpen := isStoreOpen st; isCartOpen := isCartOpen st;
     currentDay := currentDay st |}.

Definition setSettings (v : AdminSettings) (st : state) : state :=
  {| cart := cart st; settings := Some v; userName := userName st;
     registration := registration st; observations := observations st;
     isStoreOpen := isStoreOpen st; isCartOpen := isCartOpen st;
     currentDay := currentDay st |}.

Definition setUserName (v : str) (st : state) : state :=
  {| cart := cart st; settings := settings st; userName := v;
     registration := registration st; observations := observations st;
     isStoreOpen := isStoreOpen st; isCartOpen := isCartOpen st;
     currentDay := currentDay st |}.

Definition setRegistration (v : str) (st : state) : state :=
  {| cart := cart st; settings := settings st; userName := userName st;
     registration := v; observations := observations st;
     isStoreOpen := isStoreOpen st; isCartOpen := isCartOpen st;
     currentDay := currentDay st |}.

Definition setObservations (v : str) (st : state) : state :=
  {| cart := cart st; settings := settings st; userName := userName st;
     registration := registration st; observations := v;
     isStoreOpen := isStoreOpen st; isCartOpen := isCartOpen st;
     currentDay := currentDay st |}.

Definition setIsStoreOpen (v : bool) (st : state) : state :=
  {| cart := cart st; settings := settings st; userName := userName st;
     registration := registration st; observations := observations st;
     isStoreOpen := v; isCartOpen := isCartOpen st;
     currentDay := currentDay st |}.

Definition setIsCartOpen (v : bool) (st : state) : state :=
  {| cart := cart st; settings := settings st; userName := userName st;
     registration := registration st; observations := observations st;
     isStoreOpen := isStoreOpen st; isCartOpen := v;
     currentDay := currentDay st |}.

(** The initialiser of [currentDay]: [day === 0 ? 6 : day]. *)
Definition initialCurrentDay (now : Date) : Z :=
  let day := getDay now in
  if (day =? 0)%Z then 6%Z else day.

(** The state of the first render, mounted at [now]. *)
Definition initial (now : Date) : state :=
  {| cart := []; settings := None; userName := []; registration := [];
     observations := []; isStoreOpen := false; isCartOpen := false;
     currentDay := initialCurrentDay now |}.

(** The day sections of the page, [[1, 2, 3, 4, 5, 6]], and the ones that
    get the highlight class: [day === currentDay ? 'relative' : '']. *)
Definition daySections : list Z := [1; 2; 3; 4; 5; 6]%Z.

Definition highlighted (st : state) : list Z :=
  filter (fun day => (day =? currentDay st)%Z) daySections.

(* ===================================================================== *)
(** * Effects *)
(* ===================================================================== *)

Inductive toast_kind := Error | Success.

(** The verbs of the store client's query builder. *)
Inductive verb := Select | Insert | Update | Delete.

Inductive rows :=
| OrderRow (user_name registration observations : str)
| OrderItemRows (items : list (Z * str)).

Inductive effect :=
| Toast (kind : toast_kind) (message : string)
| Query (table : string) (v : verb) (payload : rows).

Definition is_toast (e : effect) : bool :=
  match e with Toast _ _ => true | Query _ _ _ => false end.

Definition is_query (e : effect) : bool :=
  match e with Toast _ _ => false | Query _ _ _ => true end.

Definition is_delete (e : effect) : bool :=
  match e with Query _ Delete _ => true | _ => false end.

(** The answer of the store to one request: the data, or an error. *)
Inductive response (A : Type) :=
| Ok (data : A)
| Failed.

Arguments Failed {A}.

(** The answers the store gives during one submission: to the insert of
    the order header (the new row's id) and to the insert of the items. *)
Record store := {
  orders_insert : response Z;
  order_items_insert : response unit
}.

(* ===================================================================== *)
(** * Keystroke handlers *)
(* ===================================================================== *)

Definition nameChangeAccepts (value : str) : bool :=
  falsy value || validateName value.

Definition handleNameChange (value : str) (st : state) : state :=
  if nameChangeAccepts value then setUserName value st else st.

(** [value === '' || (value.length <= 4 && /^\d*$/.test(value))] *)
Definition registrationChangeAccepts (value : str) : bool :=
  falsy value
  || ((List.length value <=? 4)%nat && test (Star (Class digit)) value).

Definition handleRegistrationChange (value : str) (st : state) : state :=
  if registrationChangeAccepts value then setRegistration value st else st.

Definition observationsChangeAccepts (value : str) : bool :=
  falsy value || validateObservations value.

Definition handleObservationsChange (value : str) (st : state) : state :=
  if observationsChangeAccepts value then setObservations value st else st.

(* ===================================================================== *)
(** * Store status *)
(* ===================================================================== *)

Definition fetchSettings (data : option AdminSettings) (st : state) : state :=
  match data with
  | Some d => setSettings d st
  | None => st
  end.

Definition colon : char := 58%N.

Definition checkStoreStatus (now : Date) (st : state) : state :=
  match settings st with
  | None => st
  | Some s =>
      let currentTime := (getHours now * 60 + getMinutes now)%Z in
      let dayOfWeek := getDay now in
      if (dayOfWeek =? 0)%Z then setIsStoreOpen false st
      else
        let opening := List.map Number (split colon (opening_time s)) in
        let openHours := element 0 opening in
        let openMinutes := element 1 opening in
        let closing := List.map Number (split colon (closing_time s)) in
        let closeHours := element 0 closing in
        let closeMinutes := element 1 closing in
        let openingTime := add (mul openHours (Some 60%Z)) openMinutes in
        let closingTime := add (mul closeHours (Some 60%Z)) closeMinutes in
        setIsStoreOpen
          (geb (Some currentTime) openingTime
           && leb (Some currentTime) closingTime) st
  end.

(* ===================================================================== *)
(** * Cart *)
(* ===================================================================== *)

Definition addToCart (dish : Dish) (st : state) : state * list effect :=
  if negb (isStoreOpen st) then
    (st, [Toast Error "Restaurante fechado no momento"])
  else if existsb (fun item => str_eqb (item_id item) (dish_id dish)) (cart st)
  then (st, [Toast Error "Item já está no carrinho"])
  else
    (setIsCartOpen true
       (setCart (cart st ++ [{| item_id := dish_id dish;
                                item_name := dish_name dish |}]) st),
     [Toast Success "Item adicionado ao carrinho"]).

Definition removeFromCart (id : str) (st : state) : state * list effect :=
  (setCart (filter (fun item => negb (str_eqb (item_id item) id)) (cart st)) st,
   [Toast Success "Item removido do carrinho"]).

(* ===================================================================== *)
(** * Order submission *)
(* ===================================================================== *)

Definition nameMessage : string :=
  "Por favor, insira um nome válido (apenas letras)".
Definition registrationMessage : string :=
  "Por favor, insira uma matrícula válida (4 dígitos)".
Definition observationsMessage : string :=
  "Por favor, insira observações válidas (apenas texto e pontuação básica)".
Definition cartMessage : string := "Adicione itens ao carrinho".
Definition failureMessage : string := "Erro ao realizar pedido".
Definition successMessage : string := "Pedido realizado com sucesso!".

(** The state updates of the success path. *)
Definition resetSession (st : state) : state :=
  setIsCartOpen false
    (setObservations [] (setRegistration [] (setUserName [] (setCart [] st)))).

Definition handleSubmitOrder (db : store) (st : state) : state * list effect :=
  if falsy (userName st) || negb (validateName (userName st)) then
    (st, [Toast Error nameMessage])
  else if falsy (registration st)
          || negb (validateRegistration (registration st)) then
    (st, [Toast Error registrationMessage])
  else if negb (falsy (observations st))
          && negb (validateObservations (observations st)) then
    (st, [Toast Error observationsMessage])
  else if (List.length (cart st) =? 0)%nat then
    (st, [Toast Error cartMessage])
  else
    let insertOrder :=
      Query "orders" Insert
        (OrderRow (userName st) (registration st) (observations st)) in
    match orders_insert db with
    | Failed => (st, [insertOrder; Toast Error failureMessage])
    | Ok order_id =>
        let orderItems :=
          List.map (fun item => (order_id, item_id item)) (cart st) in
        let insertItems := Query "order_items" Insert (OrderItemRows orderItems) in
        match order_items_insert db with
        | Failed =>
            (st, [insertOrder; insertItems; Toast Error failureMessage])
        | Ok _ =>
            (resetSession st,
             [insertOrder; insertItems; Toast Success successMessage])
        end
    end.

(* ===================================================================== *)
(** * The session as a transition system *)
(* ===================================================================== *)

(** Everything that changes the state after the first render. *)
Inductive event :=
| SettingsFetched (data : option AdminSettings)
| Tick (now : Date)
| NameChange (value : str)
| RegistrationChange (value : str)
| ObservationsChange (value : str)
| AddToCart (dish : Dish)
| RemoveFromCart (id : str)
| SubmitOrder (db : store)
| OpenCart
| CloseCart.

Definition step (st : state) (e : event) : state :=
  match e with
  | SettingsFetched data => fetchSettings data st
  | Tick now => checkStoreStatus now st
  | NameChange v => handleNameChange v st
  | RegistrationChange v => handleRegistrationChange v st
  | ObservationsChange v => handleObservationsChange v st
  | AddToCart dish => fst (addToCart dish st)
  | RemoveFromCart id => fst (removeFromCart id st)
  | SubmitOrder db => fst (handleSubmitOrder db st)
  | OpenCart => setIsCartOpen true st
  | CloseCart => setIsCartOpen false st
  end.

Definition run (today : Date) (evs : list event) : state :=
  fold_left step evs (initial today).

(* ===================================================================== *)
(** * The checks of a submission, as the specification lists them *)
(* ===================================================================== *)

(** The four checks in the order (i)-(iv), each with the message shown when
    it fails; [true] means the check passes. *)
Definition submission_checks : list ((state -> bool) * string) :=
  [ (fun st => negb (falsy (userName st)) && validateName (userName st),
     nameMessage);
    (fun st => negb (falsy (registration st))
               && validateRegistration (registration st),
     registrationMessage);
    (fun st => falsy (observations st) || validateObservations (observations st),
     observationsMessage);
    (fun st => negb (List.length (cart st) =? 0)%nat, cartMessage) ].

(** The message of the first check that fails, if one does. *)
Definition first_failure (st : state) : option string :=
  option_map snd (find (fun chk => negb (fst chk st)) submission_checks).

(** A submission that passes every check. *)
Definition validated (st : state) : Prop :=
  userName st <> []
  /\ validateName (userName st) = true
  /\ registration st <> []
  /\ validateRegistration (registration st) = true
  /\ (observations st = [] \/ validateObservations (observations st) = true)
  /\ cart st <> [].

(* ===================================================================== *)
(** * Invariants, stated *)
(* ===================================================================== *)

(** The ids of the entries of a cart, in order. *)
Definition ids (c : list CartItem) : list str := List.map item_id c.

(** While the window is absent the open flag is false. *)
Definition closed_until_loaded (st : state) : Prop :=
  settings st = None -> isStoreOpen st = false.

(* ===================================================================== *)
(** * Scenario data *)
(* ===================================================================== *)

Definition two_digits (n : Z) : str :=
  [Z.to_N (48 + n / 10); Z.to_N (48 + n mod 10)].

(** A time of day as the settings table stores it: ["HH:MM"], optionally
    followed by [":"] and a seconds group. *)
Definition time_of_day (h m : Z) (seconds : option str) : str :=
  two_digits h ++ colon :: two_digits m
  ++ match seconds with Some s => colon :: s | None => [] end.

Definition window_09_14 : AdminSettings :=
  {| settings_id := lit "1"; opening_time := lit "09:00";
     closing_time := lit "14:00" |}.

Definition monday (h m : Z) : Date :=
  {| getHours := h; getMinutes := m; getDay := 1 |}.

Definition sunday (h m : Z) : Date :=
  {| getHours := h; getMinutes := m; getDay := 0 |}.

Definition feijoada : Dish :=
  {| dish_id := lit "x1"; dish_name := lit "Feijoada"; description := [];
     image_url := []; day_of_week := 1 |}.

(** ["João Silva"] *)
Definition joao_silva : str := lit "Jo" ++ [227%N] ++ lit "o Silva".

(** Scenario C and D: the submitter, and a cart with item ["o1"]. *)
Definition scenario_session : state :=
  {| cart := [{| item_id := lit "o1"; item_name := lit "Omelete" |}];
     settings := Some window_09_14; userName := joao_silva;
     registration := lit "1234"; observations := [];
     isStoreOpen := true; isCartOpen := true; currentDay := 1 |}.

Definition store_commits : store :=
  {| orders_insert := Ok 77%Z; order_items_insert := Ok tt |}.

Definition store_fails_on_items : store :=
  {| orders_insert := Ok 77%Z; order_items_insert := Failed |}.

(* ===================================================================== *)
(** * Buttons of the page *)
(* ===================================================================== *)

(** The add button of a dish: [disabled={!isStoreOpen}]. *)
Definition addDisabled (st : state) : bool := negb (isStoreOpen st).

(** The submit button: [disabled={!isStoreOpen || cart.length === 0}]. *)
Definition submitDisabled (st : state) : bool :=
  negb (isStoreOpen st) || (List.length (cart st) =? 0)%nat.

(** What the keystroke handlers let into the three fields. *)
Definition fields_well_formed (st : state) : Prop :=
  nameChangeAccepts (userName st) = true
  /\ registrationChangeAccepts (registration st) = true
  /\ observationsChangeAccepts (observations st) = true.

(* ===================================================================== *)
(** * Dishes by day *)
(* ===================================================================== *)

(** An object with number keys, in insertion order.  [o[k] = v] replaces
    the value of a key that is present and adds the key otherwise; [o[k]]
    of a missing key is [undefined] ([None]). *)
Definition object (A : Type) : Type := list (Z * A).

Fixpoint object_set (A : Type) (k : Z) (v : A) (o : object A) : object A :=
  match o with
  | [] => [(k, v)]
  | (k', v') :: o' =>
      if (k' =? k)%Z then (k, v) :: o' else (k', v') :: object_set k v o'
  end.

Fixpoint object_get (A : Type) (k : Z) (o : object A) : option A :=
  match o with
  | [] => None
  | (k', v') :: o' => if (k' =? k)%Z then Some v' else object_get k o'
  end.

(** [dishes.filter(dish => dish.day_of_week === i)] *)
Definition dishesOfDay (i : Z) (dishes : list Dish) : list Dish :=
  filter (fun dish => (day_of_week dish =? i)%Z) dishes.

(** The loop [for (let i = 1; i <= 6; i++) grouped[i] = ...], started at
    [i] with [n] iterations left. *)
Fixpoint groupLoop (n : nat) (i : Z) (dishes : list Dish)
    (grouped : object (list Dish)) : object (list Dish) :=
  match n with
  | O => grouped
  | S n' =>
      groupLoop n' (i + 1)%Z dishes (object_set i (dishesOfDay i dishes) grouped)
  end.

Definition groupDishesByDay (dishes : list Dish) : object (list Dish) :=
  groupLoop 6 1%Z dishes [].

(** The dishes a column of the page shows, in document order:
    [[1, 2, 3, 4, 5, 6].map(day => byDay[day]?.map(dish => ...))]. *)
Definition renderedDishes (dishes : list Dish) : list Dish :=
  flat_map
    (fun day =>
       match object_get day (groupDishesByDay dishes) with
       | Some ds => ds
       | None => []
       end)
    daySections.

(** The order the queries of [fetchDishes] ask for: ascending day. *)
Definition ascending_days (dishes : list Dish) : Prop :=
  StronglySorted (fun a b => (day_of_week a <= day_of_week b)%Z) dishes.

Definition menu_day (dish : Dish) : bool :=
  (1 <=? day_of_week dish)%Z && (day_of_week dish <=? 6)%Z.

(* ===================================================================== *)
(** * The store client: [src/lib/supabase.ts] *)
(* ===================================================================== *)

Module Auth.

Definition AUTH_EVENT_THROTTLE : Z := 5000.

(** [localStorage]: the items, by key. *)
Definition storage : Type := list (str * str).

Definition getItem (key : str) (s : storage) : option str :=
  option_map snd (find (fun kv => str_eqb (fst kv) key) s).

Definition removeItem (key : str) (s : storage) : storage :=
  filter (fun kv => negb (str_eqb (fst kv) key)) s.

(** The module variable [lastAuthEvent] and the storage of the browser. *)
Record auth_state := {
  lastAuthEvent : Z;
  localStorage : storage
}.

Definition auth_initial (s : storage) : auth_state :=
  {| lastAuthEvent := 0; localStorage := s |}.

Definition storageKey : str := lit "cinbal-restaurant-auth".
Definition tokenKey : str := lit "supabase.auth.token".

(** The callback of [onAuthStateChange], called with [event] when
    [Date.now()] is [now]. *)
Definition onAuthStateChange (event : str) (now : Z) (a : auth_state)
    : auth_state :=
  if (AUTH_EVENT_THROTTLE <? now - lastAuthEvent a)%Z then
    {| lastAuthEvent := now;
       localStorage :=
         if str_eqb event (lit "SIGNED_OUT")
         then removeItem tokenKey (removeItem storageKey (localStorage a))
         else localStorage a |}
  else a.

(** The callback over a sequence of events with their times. *)
Definition auth_run (s : storage) (evs : list (str * Z)) : auth_state :=
  fold_left (fun a ev => onAuthStateChange (fst ev) (snd ev) a) evs
    (auth_initial s).

(** ** [getOrders] *)

(** An awaited promise: resolved with a value, or rejected. *)
Inductive outcome (A : Type) :=
| Resolved (value : A)
| Rejected (reason : string).

Arguments Rejected {A}.

(** [{ data, error }] of [auth.getUser()]: [data] may be missing and
    [data.user] may be null; the user is its id. *)
Record user_response := {
  user_data : option (option str);
  user_error : option string
}.

(** A row of [select('user_name, observations')]. *)
Definition order_row : Type := (str * str)%type.

Record orders_response := {
  orders_data : option (list order_row);
  orders_error : option string
}.

Inductive io :=
| SelectOrders (columns : string) (eq_column : string) (eq_value : str)
| ConsoleLog (label : string) (data : option (list order_row))
| ConsoleError (message : string).

Definition is_select (e : io) : bool :=
  match e with SelectOrders _ _ _ => true | _ => false end.

Definition is_console_error (e : io) : bool :=
  match e with ConsoleError _ => true | _ => false end.

(** The user of the test [userError || !user?.user], when it passes. *)
Definition signed_in_user (r : user_response) : option str :=
  match user_error r, user_data r with
  | None, Some (Some id) => Some id
  | _, _ => None
  end.

Definition getOrders (auth : outcome user_response)
    (db : outcome orders_response) : option (list order_row) * list io :=
  match auth with
  | Rejected reason => (None, [ConsoleError reason])
  | Resolved r =>
      match signed_in_user r with
      | Some id =>
          let query := SelectOrders "user_name, observations" "user_id" id in
          match db with
          | Rejected reason => (None, [query; ConsoleError reason])
          | Resolved o =>
              match orders_error o with
              | Some message =>
                  (None,
                   [query;
                    ConsoleError ("Erro ao buscar pedidos: " ++ message)%string])
              | None =>
                  (orders_data o,
                   [query; ConsoleLog "Pedidos:" (orders_data o)])
              end
          end
      | None => (None, [ConsoleError "Usuário não autenticado"])
      end
  end.

End Auth.

(* ===================================================================== *)
(** * More scenario data *)
(* ===================================================================== *)

Definition window_22_02 : AdminSettings :=
  {| settings_id := lit "1"; opening_time := lit "22:00";
     closing_time := lit "02:00" |}.

Definition window_no_colon : AdminSettings :=
  {| settings_id := lit "1"; opening_time := lit "0900";
     closing_time := lit "14:00" |}.

Definition omelete : Dish :=
  {| dish_id := lit "o1"; dish_name := lit "Omelete"; description := [];
     image_url := []; day_of_week := 2 |}.

Definition sunday_special : Dish :=
  {| dish_id := lit "s0"; dish_name := lit "Churrasco"; description := [];
     image_url := []; day_of_week := 0 |}.

Definition stored_session : Auth.storage :=
  [ (Auth.storageKey, lit "session"); (lit "theme", lit "dark");
    (Auth.tokenKey, lit "token") ].

Ltac case_if :=
  match goal with
  | |- context [if ?b then _ else _] => destruct b eqn:?
  | |- context [match ?r with Ok _ => _ | Failed => _ end] => destruct r eqn:?
  end.

(* ===================================================================== *)
(** * Regular expressions: what the matcher computes *)
(* ===================================================================== *)

Module RegExpFacts.

Lemma matches_Void (s : str) : matches Void s = false.
Proof. induction s as [|c s IH]; simpl; auto. Qed.

Lemma matches_Alt (a b : re) (s : str) :
  matches (Alt a b) s = matches a s || matches b s.
Proof.
  revert a b; induction s as [|c s IH]; intros a b; simpl; auto.
Qed.

Lemma matches_Cat_Void (r : re) (s : str) : matches (Cat Void r) s = false.
Proof. induction s as [|c s IH]; simpl; auto. Qed.

Lemma matches_Cat_Eps (r : re) (s : str) :
  matches (Cat Eps r) s = matches r s.
Proof.
  destruct s as [|c s]; simpl; auto.
  now rewrite matches_Alt, matches_Cat_Void.
Qed.

(** A class followed by [r]: the first character is in the class and the
    rest matches [r]. *)
Lemma matches_Cat_Class (p : char -> bool) (r : re) (s : str) :
  matches (Cat (Class p) r) s =
  match s with
  | [] => false
  | c :: s' => p c && matches r s'
  end.
Proof.
  destruct s as [|c s]; simpl; auto.
  destruct (p c); simpl.
  - apply matches_Cat_Eps.
  - apply matches_Cat_Void.
Qed.

(** [[p]*] accepts exactly the strings whose characters are all in [p]. *)
Lemma matches_Star_Class (p : char -> bool) (s : str) :
  matches (Star (Class p)) s = forallb p s.
Proof.
  induction s as [|c s IH]; simpl; auto.
  destruct (p c); simpl.
  - now rewrite matches_Cat_Eps.
  - apply matches_Cat_Void.
Qed.

(** [[p]+] accepts the non-empty ones among them. *)
Lemma matches_Plus_Class (p : char -> bool) (s : str) :
  matches (Plus (Class p)) s = negb (falsy s) && forallb p s.
Proof.
  unfold Plus. rewrite matches_Cat_Class.
  destruct s as [|c s]; simpl; auto.
  now rewrite matches_Star_Class.
Qed.

(** [[p]{n}] accepts the ones of length [n]. *)
Lemma matches_Repeat_Class (p : char -> bool) (n : nat) (s : str) :
  matches (Repeat n (Class p)) s = (List.length s =? n)%nat && forallb p s.
Proof.
  revert s; induction n as [|n IH]; intros s; simpl Repeat.
  - destruct s as [|c s]; simpl; auto. apply matches_Void.
  - rewrite matches_Cat_Class. destruct s as [|c s]; simpl; auto.
    rewrite IH. destruct (p c); simpl; auto.
    now rewrite andb_false_r.
Qed.

End RegExpFacts.

Import RegExpFacts.

(* ===================================================================== *)
(** * Validators *)
(* ===================================================================== *)

Lemma validateName_spec (s : str) :
  validateName s = negb (falsy s) && forallb name_class s.
Proof. apply matches_Plus_Class. Qed.

Lemma validateRegistration_spec (s : str) :
  validateRegistration s = (List.length s =? 4)%nat && forallb digit s.
Proof. apply (matches_Repeat_Class digit 4). Qed.

Lemma validateObservations_spec (s : str) :
  validateObservations s = forallb observations_class s.
Proof. apply matches_Star_Class. Qed.

Lemma falsy_nil (s : str) : falsy s = true <-> s = [].
Proof. destruct s; simpl; split; congruence. Qed.

Lemma falsy_cons (s : str) : falsy s = false <-> s <> [].
Proof. destruct s; simpl; split; congruence. Qed.

(** No digit is in the class of a name. *)
Lemma name_class_not_digit (c : char) :
  name_class c = true -> digit c = false.
Proof.
  unfold name_class, letter, space, digit, in_range, code.
  intros H.
  apply andb_false_iff.
  repeat (apply orb_true_iff in H; destruct H as [H|H]);
    try (apply andb_true_iff in H; destruct H as [H1 H2];
         apply N.leb_le in H1; apply N.leb_le in H2);
    try apply N.eqb_eq in H;
    rewrite !N.leb_gt; lia.
Qed.

(** A string that fails [forallb] has an element that fails. *)
Lemma forallb_false_witness (A : Type) (p : A -> bool) (l : list A) :
  forallb p l = false -> exists x, In x l /\ p x = false.
Proof.
  induction l as [|a l IH]; simpl; [discriminate|].
  destruct (p a) eqn:E; simpl; intros H.
  - destruct (IH H) as [x [Hx Hp]]. exists x; auto.
  - exists a; auto.
Qed.

Example validateName_joao : validateName joao_silva = true.
Proof. reflexivity. Qed.

Example validateName_digit : validateName (lit "Joao 2") = false.
Proof. reflexivity. Qed.

Example validateRegistration_scenario_E :
  validateRegistration (lit "12a4") = false
  /\ validateRegistration (lit "12345") = false
  /\ validateRegistration (lit "0000") = true.
Proof. repeat split. Qed.

(** C4 (as stated), refuted.  U+0141, the Latin capital letter L with
    stroke, is a Unicode letter and the validator rejects it; U+0009, the
    tab, is neither a letter nor the space character and the validator
    accepts it. *)
Lemma validateName_not_unicode_letters :
  validateName [321%N] = false
  /\ (validateName [9%N] = true /\ letter 9 = false /\ 9%N <> 32%N).
Proof. repeat split; discriminate. Qed.

(** C4 (amended).  [validateName s] is true if and only if [s] is non-empty
    and every code unit of [s] is in the class of the pattern: an ASCII
    letter, a Latin-1 letter of the ranges À-Ö, Ø-ö, ø-ÿ, or a white-space
    character of [\s].  An accepted string has no digit and no code unit
    outside these letters and white space, and a rejected non-empty string
    has a code unit outside them. *)
Theorem validateName_characterised (s : str) :
  (validateName s = true <->
   s <> [] /\ Forall (fun c => letter c = true \/ space c = true) s)
  /\ (validateName s = true ->
      forall c, In c s -> digit c = false /\ (letter c = true \/ space c = true))
  /\ (validateName s = false -> s <> [] ->
      exists c, In c s /\ letter c = false /\ space c = false).
Proof.
  rewrite validateName_spec.
  assert (Hall : forallb name_class s = true <->
                 Forall (fun c => letter c = true \/ space c = true) s).
  { rewrite forallb_forall, Forall_forall. unfold name_class.
    split; intros H c Hc; specialize (H c Hc); now apply orb_true_iff. }
  split; [|split].
  - rewrite andb_true_iff, negb_true_iff, falsy_cons. now rewrite Hall.
  - rewrite andb_true_iff. intros [_ H] c Hc.
    rewrite forallb_forall in H. specialize (H c Hc). split.
    + now apply name_class_not_digit.
    + now apply orb_true_iff.
  - intros H Hne. apply falsy_cons in Hne. rewrite Hne in H. simpl in H.
    destruct (forallb_false_witness _ _ H) as [c [Hc Hp]].
    exists c. split; [assumption|]. now apply orb_false_iff.
Qed.

Lemma validateName_characterised_witness :
  (forall c, In c joao_silva ->
             digit c = false /\ (letter c = true \/ space c = true))
  /\ (exists c, In c (lit "Joao 2") /\ letter c = false /\ space c = false).
Proof.
  split.
  - apply (proj1 (proj2 (validateName_characterised joao_silva))).
    reflexivity.
  - apply (proj2 (proj2 (validateName_characterised (lit "Joao 2")))).
    + reflexivity.
    + discriminate.
Defined.

(* ===================================================================== *)
(** * Keystroke checks against the submission validators *)
(* ===================================================================== *)


Lemma registrationChangeAccepts_spec (s : str) :
  registrationChangeAccepts s = (List.length s <=? 4)%nat && forallb digit s.
Proof.
  unfold registrationChangeAccepts, test. rewrite matches_Star_Class.
  destruct s; reflexivity.
Qed.




(* ===================================================================== *)
(** * Reading a time of day *)
(* ===================================================================== *)

Lemma split_piece (sep : char) (a rest : str) :
  forallb (fun c => negb (N.eqb c sep)) a = true ->
  split sep (a ++ sep :: rest) = a :: split sep rest.
Proof.
  induction a as [|c a IH]; simpl; intros H.
  - now rewrite N.eqb_refl.
  - apply andb_true_iff in H. destruct H as [Hc Ha].
    apply negb_true_iff in Hc. rewrite Hc, (IH Ha). reflexivity.
Qed.

Lemma split_last_piece (sep : char) (a : str) :
  forallb (fun c => negb (N.eqb c sep)) a = true ->
  split sep a = [a].
Proof.
  induction a as [|c a IH]; simpl; intros H; [reflexivity|].
  apply andb_true_iff in H. destruct H as [Hc Ha].
  apply negb_true_iff in Hc. rewrite Hc, (IH Ha). reflexivity.
Qed.

Lemma two_digits_range (n : Z) :
  (0 <= n < 100)%Z ->
  exists d1 d2 : N,
    two_digits n = [d1; d2]
    /\ (48 <= d1 <= 57)%N /\ (48 <= d2 <= 57)%N
    /\ (Z.of_N (d1 - 48) * 10 + Z.of_N (d2 - 48) = n)%Z.
Proof.
  intros Hn. unfold two_digits.
  exists (Z.to_N (48 + n / 10)), (Z.to_N (48 + n mod 10)).
  assert (H : (0 <= n / 10 <= 9 /\ 0 <= n mod 10 <= 9
               /\ n = 10 * (n / 10) + n mod 10)%Z)
    by (Z.div_mod_to_equations; lia).
  repeat split; lia.
Qed.

Lemma two_digits_no_colon (n : Z) :
  (0 <= n < 100)%Z ->
  forallb (fun c => negb (N.eqb c colon)) (two_digits n) = true.
Proof.
  intros Hn. destruct (two_digits_range Hn) as [d1 [d2 [E [H1 [H2 _]]]]].
  rewrite E. unfold colon. simpl.
  assert (N.eqb d1 58 = false) as -> by (apply N.eqb_neq; lia).
  assert (N.eqb d2 58 = false) as -> by (apply N.eqb_neq; lia).
  reflexivity.
Qed.

Lemma Number_two_digits (n : Z) :
  (0 <= n < 100)%Z -> Number (two_digits n) = Some n.
Proof.
  intros Hn. destruct (two_digits_range Hn) as [d1 [d2 [E [H1 [H2 Hv]]]]].
  rewrite E. unfold Number, is_digit, digit_value. simpl.
  assert ((48 <=? d1)%N = true) as -> by (apply N.leb_le; lia).
  assert ((d1 <=? 57)%N = true) as -> by (apply N.leb_le; lia).
  assert ((48 <=? d2)%N = true) as -> by (apply N.leb_le; lia).
  assert ((d2 <=? 57)%N = true) as -> by (apply N.leb_le; lia).
  simpl. f_equal. lia.
Qed.

(** The hour and minute that [checkStoreStatus] reads from a time of day. *)
Lemma time_of_day_read (h m : Z) (seconds : option str) :
  (0 <= h < 100)%Z -> (0 <= m < 100)%Z ->
  let groups := List.map Number (split colon (time_of_day h m seconds)) in
  element 0 groups = Some h /\ element 1 groups = Some m.
Proof.
  intros Hh Hm. unfold time_of_day.
  rewrite (@split_piece _ _ _ (two_digits_no_colon Hh)).
  destruct seconds as [s|].
  - rewrite (@split_piece _ _ _ (two_digits_no_colon Hm)). simpl.
    now rewrite !Number_two_digits.
  - rewrite app_nil_r, (@split_last_piece _ _ (two_digits_no_colon Hm)). simpl.
    now rewrite !Number_two_digits.
Qed.

Example time_of_day_09_00 : time_of_day 9 0 None = lit "09:00".
Proof. reflexivity. Qed.

Example time_of_day_14_00_00 :
  time_of_day 14 0 (Some (lit "00")) = lit "14:00:00".
Proof. reflexivity. Qed.

(* ===================================================================== *)
(** * Store status *)
(* ===================================================================== *)

(** C9.  With the window loaded, on Sunday (day 0) the status check sets
    the open flag to false, whatever the time and the window. *)
Theorem sunday_is_closed (W : AdminSettings) (now : Date) (st : state) :
  settings st = Some W ->
  getDay now = 0%Z ->
  checkStoreStatus now st = setIsStoreOpen false st
  /\ isStoreOpen (checkStoreStatus now st) = false.
Proof.
  intros HW Hday. unfold checkStoreStatus. rewrite HW, Hday. simpl. auto.
Qed.

Lemma sunday_is_closed_witness :
  isStoreOpen (checkStoreStatus (sunday 12 0) scenario_session) = false.
Proof.
  apply (sunday_is_closed (W := window_09_14) (sunday 12 0) scenario_session);
    reflexivity.
Defined.

(** C3.  For a loaded window whose opening and closing times are times of
    day ["HH:MM"] (with or without a seconds group) and a day other than
    Sunday, the status check sets the open flag to true if and only if
    opening hour * 60 + opening minute <= current hour * 60 + current
    minute <= closing hour * 60 + closing minute, both bounds included.
    For the window 09:00-14:00 on Monday: 08:59 is closed, 09:00 and 14:00
    are open, 14:01 is closed. *)
Theorem open_within_window
    (W : AdminSettings) (now : Date) (st : state)
    (oh om ch cm : Z) (os cs : option str) :
  settings st = Some W ->
  getDay now <> 0%Z ->
  (0 <= oh < 24)%Z -> (0 <= om < 60)%Z ->
  (0 <= ch < 24)%Z -> (0 <= cm < 60)%Z ->
  opening_time W = time_of_day oh om os ->
  closing_time W = time_of_day ch cm cs ->
  (oh * 60 + om <= ch * 60 + cm)%Z ->
  (isStoreOpen (checkStoreStatus now st) = true <->
   (oh * 60 + om <= getHours now * 60 + getMinutes now <= ch * 60 + cm)%Z)
  /\ (forall s : state, settings s = Some window_09_14 ->
        isStoreOpen (checkStoreStatus (monday 8 59) s) = false
        /\ isStoreOpen (checkStoreStatus (monday 9 0) s) = true
        /\ isStoreOpen (checkStoreStatus (monday 14 0) s) = true
        /\ isStoreOpen (checkStoreStatus (monday 14 1) s) = false).
Proof.
  intros HW Hday Hoh Hom Hch Hcm Hopen Hclose _. split.
  - unfold checkStoreStatus. rewrite HW.
    apply Z.eqb_neq in Hday. rewrite Hday, Hopen, Hclose.
    destruct (@time_of_day_read oh om os) as [E1 E2]; try lia.
    destruct (@time_of_day_read ch cm cs) as [E3 E4]; try lia.
    cbv zeta in E1, E2, E3, E4. rewrite E1, E2, E3, E4. simpl.
    rewrite andb_true_iff, !Z.leb_le. lia.
  - intros s Hs. unfold checkStoreStatus. rewrite Hs.
    repeat split; reflexivity.
Qed.

Lemma open_within_window_witness :
  isStoreOpen (checkStoreStatus (monday 9 0) scenario_session) = true.
Proof.
  apply (@open_within_window window_09_14 (monday 9 0) scenario_session
           9 0 14 0 None None);
    try reflexivity; try discriminate; simpl; lia.
Defined.

(* ===================================================================== *)
(** * Invariants of the session *)
(* ===================================================================== *)

(** A submission leaves the state as it was or resets the session. *)
Lemma handleSubmitOrder_state (db : store) (st : state) :
  fst (handleSubmitOrder db st) = st
  \/ fst (handleSubmitOrder db st) = resetSession st.
Proof.
  unfold handleSubmitOrder. repeat case_if; simpl; auto.
Qed.

(** An invariant of the initial state that every event preserves holds in
    every state the session reaches. *)
Lemma run_invariant (P : state -> Prop) (today : Date) :
  P (initial today) ->
  (forall st e, P st -> P (step st e)) ->
  forall evs, P (run today evs).
Proof.
  intros Hinit Hstep evs. unfold run.
  generalize (initial today) Hinit. induction evs as [|e evs IH]; simpl; auto.
Qed.

Lemma step_closed_until_loaded (st : state) (e : event) :
  closed_until_loaded st -> closed_until_loaded (step st e).
Proof.
  unfold closed_until_loaded. intros H.
  destruct e; simpl; try exact H.
  - destruct data; simpl; [discriminate | exact H].
  - unfold checkStoreStatus. destruct (settings st) eqn:E; [|now rewrite E].
    case_if; simpl; rewrite E; discriminate.
  - unfold handleNameChange. case_if; exact H.
  - unfold handleRegistrationChange. case_if; exact H.
  - unfold handleObservationsChange. case_if; exact H.
  - unfold addToCart. repeat case_if; exact H.
  - destruct (handleSubmitOrder_state db st) as [-> | ->]; exact H.
Qed.

Lemma step_currentDay (st : state) (e : event) :
  currentDay (step st e) = currentDay st.
Proof.
  destruct e; simpl; try reflexivity.
  - destruct data; reflexivity.
  - unfold checkStoreStatus. destruct (settings st); [case_if|]; reflexivity.
  - unfold handleNameChange. case_if; reflexivity.
  - unfold handleRegistrationChange. case_if; reflexivity.
  - unfold handleObservationsChange. case_if; reflexivity.
  - unfold addToCart. repeat case_if; reflexivity.
  - destruct (handleSubmitOrder_state db st) as [-> | ->]; reflexivity.
Qed.

(** ** The ids of the cart *)

Lemma str_eqb_eq (a b : str) : str_eqb a b = true <-> a = b.
Proof. unfold str_eqb. destruct (str_eq_dec a b); split; congruence. Qed.

Lemma in_cart_existsb (id : str) (c : list CartItem) :
  existsb (fun item => str_eqb (item_id item) id) c = true <-> In id (ids c).
Proof.
  unfold ids. rewrite existsb_exists, in_map_iff.
  split; intros [x [H1 H2]]; exists x.
  - apply str_eqb_eq in H2. auto.
  - split; [assumption|]. now apply str_eqb_eq.
Qed.

Lemma NoDup_ids_snoc (c : list CartItem) (x : CartItem) :
  NoDup (ids c) -> ~ In (item_id x) (ids c) -> NoDup (ids (c ++ [x])).
Proof.
  unfold ids. induction c as [|y c IH]; simpl; intros Hnd Hin.
  - constructor; [intros []|constructor].
  - inversion Hnd as [|? ? Hy Hc]; subst. constructor.
    + rewrite map_app, in_app_iff. simpl. intros [H|[H|[]]]; [tauto|].
      apply Hin. left. congruence.
    + apply IH; tauto.
Qed.

Lemma NoDup_ids_filter (p : CartItem -> bool) (c : list CartItem) :
  NoDup (ids c) -> NoDup (ids (filter p c)).
Proof.
  unfold ids. induction c as [|y c IH]; simpl; intros Hnd; [constructor|].
  inversion Hnd as [|? ? Hy Hc]; subst.
  destruct (p y); simpl; auto.
  constructor; auto.
  rewrite in_map_iff. intros [x [Hx Hin]]. apply filter_In in Hin.
  apply Hy. rewrite in_map_iff. exists x. tauto.
Qed.

Lemma step_unique_ids (st : state) (e : event) :
  NoDup (ids (cart st)) -> NoDup (ids (cart (step st e))).
Proof.
  intros H. destruct e; simpl; try exact H.
  - destruct data; exact H.
  - unfold checkStoreStatus. destruct (settings st); [case_if|]; exact H.
  - unfold handleNameChange. case_if; exact H.
  - unfold handleRegistrationChange. case_if; exact H.
  - unfold handleObservationsChange. case_if; exact H.
  - unfold addToCart. repeat case_if; simpl; try exact H.
    apply NoDup_ids_snoc; [exact H|]. simpl.
    rewrite <- in_cart_existsb. congruence.
  - now apply NoDup_ids_filter.
  - destruct (handleSubmitOrder_state db st) as [-> | ->];
      [exact H | constructor].
Qed.

(* ===================================================================== *)
(** * The open flag while the window is absent *)
(* ===================================================================== *)

(** C2.  At every time and on every day, in every state the session
    reaches with the window absent, the open flag is false after the
    status check, as it was before it.  The check returns at its guard
    without touching the state; the flag starts false and is set only
    once the window is loaded, so false is the only value it can have
    had. *)
Theorem absent_window_closed (today now : Date) (evs : list event) :
  (forall st : state, settings st = None -> checkStoreStatus now st = st)
  /\ (settings (run today evs) = None ->
      isStoreOpen (run today evs) = false
      /\ isStoreOpen (checkStoreStatus now (run today evs)) = false).
Proof.
  split.
  - intros st H. unfold checkStoreStatus. now rewrite H.
  - intros H.
    assert (Hinv : closed_until_loaded (run today evs)).
    { apply run_invariant.
      - intros _. reflexivity.
      - apply step_closed_until_loaded. }
    split; [now apply Hinv|].
    unfold checkStoreStatus. rewrite H. now apply Hinv.
Qed.

Lemma absent_window_closed_witness :
  isStoreOpen
    (checkStoreStatus (monday 12 0)
       (run (monday 8 0) [Tick (monday 8 0); OpenCart; Tick (monday 9 30)]))
  = false.
Proof.
  apply (absent_window_closed (monday 8 0) (monday 12 0)
           [Tick (monday 8 0); OpenCart; Tick (monday 9 30)]).
  reflexivity.
Defined.

(* ===================================================================== *)
(** * Cart *)
(* ===================================================================== *)

(** C6.  [addToCart] leaves the whole state, the cart included, unchanged
    when the store is closed and when an entry with the id of the dish is
    in the cart; otherwise it appends the entry (id, name) at the end.
    Adding the same dish a second time does not change the size of the
    cart, and in every state the session reaches no two entries of the
    cart have the same id. *)
Theorem addToCart_unique (dish : Dish) (st : state) :
  (isStoreOpen st = false -> fst (addToCart dish st) = st)
  /\ (In (dish_id dish) (ids (cart st)) -> fst (addToCart dish st) = st)
  /\ (isStoreOpen st = true -> ~ In (dish_id dish) (ids (cart st)) ->
      cart (fst (addToCart dish st)) =
      cart st ++ [{| item_id := dish_id dish; item_name := dish_name dish |}])
  /\ List.length (cart (fst (addToCart dish (fst (addToCart dish st))))) =
     List.length (cart (fst (addToCart dish st)))
  /\ (forall (today : Date) (evs : list event),
        NoDup (ids (cart (run today evs)))).
Proof.
  assert (Hclosed : isStoreOpen st = false -> fst (addToCart dish st) = st).
  { intros H. unfold addToCart. now rewrite H. }
  assert (Hdup : forall s, In (dish_id dish) (ids (cart s)) ->
                           fst (addToCart dish s) = s).
  { intros s H. unfold addToCart. apply in_cart_existsb in H. rewrite H.
    now destruct (isStoreOpen s). }
  assert (Hadd : isStoreOpen st = true -> ~ In (dish_id dish) (ids (cart st)) ->
                 fst (addToCart dish st) =
                 setIsCartOpen true
                   (setCart (cart st ++ [{| item_id := dish_id dish;
                                            item_name := dish_name dish |}]) st)).
  { intros Ho Hn. unfold addToCart. rewrite Ho. simpl.
    rewrite <- in_cart_existsb in Hn. apply not_true_is_false in Hn.
    now rewrite Hn. }
  repeat split; auto.
  - intros Ho Hn. now rewrite (Hadd Ho Hn).
  - destruct (isStoreOpen st) eqn:Ho; [|now rewrite !(Hclosed eq_refl)].
    destruct (in_dec str_eq_dec (dish_id dish) (ids (cart st))) as [Hi|Hn].
    + now rewrite !(Hdup st Hi).
    + rewrite (Hadd eq_refl Hn), Hdup; [reflexivity|].
      unfold ids. simpl. rewrite map_app, in_app_iff. simpl. auto.
  - intros today evs. apply run_invariant.
    + constructor.
    + apply step_unique_ids.
Qed.

Lemma addToCart_unique_witness :
  cart (fst (addToCart feijoada (setCart [] scenario_session))) =
  [{| item_id := lit "x1"; item_name := lit "Feijoada" |}]
  /\ fst (addToCart feijoada (fst (addToCart feijoada scenario_session))) =
     fst (addToCart feijoada scenario_session).
Proof.
  split.
  - apply (addToCart_unique feijoada (setCart [] scenario_session)).
    + reflexivity.
    + simpl. tauto.
  - apply (addToCart_unique feijoada (fst (addToCart feijoada scenario_session))).
    simpl. auto.
Defined.

(* ===================================================================== *)
(** * Order submission *)
(* ===================================================================== *)

Lemma cart_empty_length (c : list CartItem) :
  (List.length c =? 0)%nat = true <-> c = [].
Proof. destruct c; simpl; split; congruence. Qed.

(** Once the four checks pass, the submission is the two inserts. *)
Lemma handleSubmitOrder_validated (db : store) (st : state) :
  validated st ->
  handleSubmitOrder db st =
  let insertOrder :=
    Query "orders" Insert
      (OrderRow (userName st) (registration st) (observations st)) in
  match orders_insert db with
  | Failed => (st, [insertOrder; Toast Error failureMessage])
  | Ok order_id =>
      let insertItems :=
        Query "order_items" Insert
          (OrderItemRows
             (List.map (fun item => (order_id, item_id item)) (cart st))) in
      match order_items_insert db with
      | Failed => (st, [insertOrder; insertItems; Toast Error failureMessage])
      | Ok _ =>
          (resetSession st,
           [insertOrder; insertItems; Toast Success successMessage])
      end
  end.
Proof.
  intros (Hn & Hvn & Hr & Hvr & Ho & Hc).
  unfold handleSubmitOrder.
  apply falsy_cons in Hn. apply falsy_cons in Hr.
  rewrite Hn, Hvn, Hr, Hvr. simpl.
  assert (negb (falsy (observations st))
          && negb (validateObservations (observations st)) = false) as ->.
  { destruct Ho as [Ho|Ho]; rewrite Ho; [reflexivity|].
    apply andb_false_r. }
  assert ((List.length (cart st) =? 0)%nat = false) as ->.
  { apply not_true_is_false. now rewrite cart_empty_length. }
  reflexivity.
Qed.

(** The code reports the first failing check of the list (i)-(iv). *)
Lemma handleSubmitOrder_first_failure (db : store) (st : state) :
  match first_failure st with
  | Some msg => handleSubmitOrder db st = (st, [Toast Error msg])
  | None => validated st
  end.
Proof.
  unfold first_failure, submission_checks, handleSubmitOrder, validated.
  simpl.
  destruct (userName st) as [|c1 n] eqn:En; simpl; [reflexivity|].
  destruct (validateName (c1 :: n)) eqn:Evn; simpl; [|reflexivity].
  destruct (registration st) as [|c2 r] eqn:Er; simpl; [reflexivity|].
  destruct (validateRegistration (c2 :: r)) eqn:Evr; simpl; [|reflexivity].
  destruct (observations st) as [|c3 o] eqn:Eo; simpl.
  - destruct (cart st); simpl; [reflexivity|].
    repeat split; auto; discriminate.
  - destruct (validateObservations (c3 :: o)) eqn:Evo; simpl; [|reflexivity].
    destruct (cart st); simpl; [reflexivity|].
    repeat split; auto; discriminate.
Qed.

(** C7.  The submission evaluates (i) name present and valid, (ii)
    registration present and valid, (iii) notes empty or valid, (iv) cart
    non-empty, in this order.  The first check that fails gives the only
    effect of the attempt, one error toast with the message of that check:
    the state is unchanged and no query is sent to the store.  With an
    invalid name and an empty cart, the name message is the one shown. *)
Theorem submission_first_failure_wins (db : store) (st : state) :
  (userName st = [] \/ validateName (userName st) = false ->
   handleSubmitOrder db st = (st, [Toast Error nameMessage]))
  /\ (userName st <> [] -> validateName (userName st) = true ->
      registration st = [] \/ validateRegistration (registration st) = false ->
      handleSubmitOrder db st = (st, [Toast Error registrationMessage]))
  /\ (userName st <> [] -> validateName (userName st) = true ->
      registration st <> [] -> validateRegistration (registration st) = true ->
      validateObservations (observations st) = false ->
      handleSubmitOrder db st = (st, [Toast Error observationsMessage]))
  /\ (userName st <> [] -> validateName (userName st) = true ->
      registration st <> [] -> validateRegistration (registration st) = true ->
      observations st = [] \/ validateObservations (observations st) = true ->
      cart st = [] ->
      handleSubmitOrder db st = (st, [Toast Error cartMessage]))
  /\ match first_failure st with
     | Some msg =>
         handleSubmitOrder db st = (st, [Toast Error msg])
         /\ filter is_query (snd (handleSubmitOrder db st)) = []
     | None =>
         validated st
         /\ hd_error (snd (handleSubmitOrder db st)) =
            Some (Query "orders" Insert
                    (OrderRow (userName st) (registration st) (observations st)))
     end
  /\ (validateName (userName st) = false -> cart st = [] ->
      handleSubmitOrder db st = (st, [Toast Error nameMessage]))
  /\ nameMessage <> cartMessage.
Proof.
  assert (Hname : userName st = [] \/ validateName (userName st) = false ->
                  handleSubmitOrder db st = (st, [Toast Error nameMessage])).
  { unfold handleSubmitOrder. intros [H|H]; rewrite H; [reflexivity|].
    now rewrite orb_true_r. }
  split; [exact Hname|].
  split; [|split; [|split; [|split; [|split]]]].
  - intros Hn Hvn Hr. unfold handleSubmitOrder.
    apply falsy_cons in Hn. rewrite Hn, Hvn. simpl.
    destruct Hr as [H|H]; rewrite H; [reflexivity|]. now rewrite orb_true_r.
  - intros Hn Hvn Hr Hvr Hvo. unfold handleSubmitOrder.
    apply falsy_cons in Hn. apply falsy_cons in Hr.
    rewrite Hn, Hvn, Hr, Hvr, Hvo. simpl.
    destruct (observations st); [discriminate Hvo | reflexivity].
  - intros Hn Hvn Hr Hvr Ho Hc. unfold handleSubmitOrder.
    apply falsy_cons in Hn. apply falsy_cons in Hr.
    rewrite Hn, Hvn, Hr, Hvr, Hc. simpl.
    destruct Ho as [H|H]; rewrite H; [reflexivity|].
    now rewrite andb_false_r.
  - pose proof (handleSubmitOrder_first_failure db st) as H.
    destruct (first_failure st) as [msg|].
    + rewrite H. auto.
    + split; [exact H|]. rewrite (handleSubmitOrder_validated db H). simpl.
      destruct (orders_insert db); [destruct (order_items_insert db)|];
        reflexivity.
  - intros H _. apply Hname. now right.
  - discriminate.
Qed.

Lemma submission_first_failure_wins_witness :
  handleSubmitOrder store_commits
    (setCart [] (setUserName (lit "R2D2") scenario_session)) =
  (setCart [] (setUserName (lit "R2D2") scenario_session),
   [Toast Error nameMessage]).
Proof.
  apply (submission_first_failure_wins store_commits
           (setCart [] (setUserName (lit "R2D2") scenario_session)));
    reflexivity.
Defined.

(** C1.  When the checks pass, the insert of the order header succeeds and
    the insert of the items fails, the attempt ends with the state
    unchanged (cart, name, registration, notes and the cart panel as they
    were) and with exactly one toast, the generic failure message that a
    failed header insert also gives.  The queries sent are the two inserts:
    no delete of the stored header is sent. *)
Theorem items_failure_keeps_session (db : store) (st : state) (order_id : Z) :
  validated st ->
  orders_insert db = Ok order_id ->
  order_items_insert db = Failed ->
  fst (handleSubmitOrder db st) = st
  /\ cart (fst (handleSubmitOrder db st)) = cart st
  /\ userName (fst (handleSubmitOrder db st)) = userName st
  /\ registration (fst (handleSubmitOrder db st)) = registration st
  /\ observations (fst (handleSubmitOrder db st)) = observations st
  /\ isCartOpen (fst (handleSubmitOrder db st)) = isCartOpen st
  /\ snd (handleSubmitOrder db st) =
     [ Query "orders" Insert
         (OrderRow (userName st) (registration st) (observations st));
       Query "order_items" Insert
         (OrderItemRows
            (List.map (fun item => (order_id, item_id item)) (cart st)));
       Toast Error failureMessage ]
  /\ filter is_toast (snd (handleSubmitOrder db st)) =
     [Toast Error failureMessage]
  /\ existsb is_delete (snd (handleSubmitOrder db st)) = false
  /\ (forall db' : store, orders_insert db' = Failed ->
        fst (handleSubmitOrder db' st) = st
        /\ filter is_toast (snd (handleSubmitOrder db' st)) =
           [Toast Error failureMessage]).
Proof.
  intros Hv Hh Hi.
  rewrite (handleSubmitOrder_validated db Hv), Hh, Hi. simpl.
  repeat split; try reflexivity.
  - rewrite (handleSubmitOrder_validated db' Hv), H. reflexivity.
  - rewrite (handleSubmitOrder_validated db' Hv), H. reflexivity.
Qed.

Lemma scenario_session_validated : validated scenario_session.
Proof. repeat split; try discriminate. now left. Qed.

Lemma items_failure_keeps_session_witness :
  handleSubmitOrder store_fails_on_items scenario_session =
  (scenario_session,
   [ Query "orders" Insert (OrderRow joao_silva (lit "1234") []);
     Query "order_items" Insert (OrderItemRows [(77%Z, lit "o1")]);
     Toast Error failureMessage ]).
Proof.
  destruct (@items_failure_keeps_session store_fails_on_items
              scenario_session 77 scenario_session_validated
              eq_refl eq_refl) as (Hst & _ & _ & _ & _ & _ & Heff & _).
  rewrite (surjective_pairing (handleSubmitOrder _ _)), Hst, Heff.
  reflexivity.
Defined.

(** C8.  When the checks pass and both inserts succeed, the cart is
    emptied, the name, registration and notes are reset to the empty
    string, the cart panel is closed, and the one toast is the success
    message; the queries sent are the header insert and then the insert of
    one item row per cart entry with the id the header insert returned. *)
Theorem commit_resets_session (db : store) (st : state) (order_id : Z) :
  validated st ->
  orders_insert db = Ok order_id ->
  order_items_insert db = Ok tt ->
  cart (fst (handleSubmitOrder db st)) = []
  /\ userName (fst (handleSubmitOrder db st)) = []
  /\ registration (fst (handleSubmitOrder db st)) = []
  /\ observations (fst (handleSubmitOrder db st)) = []
  /\ isCartOpen (fst (handleSubmitOrder db st)) = false
  /\ settings (fst (handleSubmitOrder db st)) = settings st
  /\ isStoreOpen (fst (handleSubmitOrder db st)) = isStoreOpen st
  /\ snd (handleSubmitOrder db st) =
     [ Query "orders" Insert
         (OrderRow (userName st) (registration st) (observations st));
       Query "order_items" Insert
         (OrderItemRows
            (List.map (fun item => (order_id, item_id item)) (cart st)));
       Toast Success successMessage ].
Proof.
  intros Hv Hh Hi.
  rewrite (handleSubmitOrder_validated db Hv), Hh, Hi. simpl.
  repeat split; reflexivity.
Qed.

Lemma commit_resets_session_witness :
  cart (fst (handleSubmitOrder store_commits scenario_session)) = []
  /\ userName (fst (handleSubmitOrder store_commits scenario_session)) = []
  /\ snd (handleSubmitOrder store_commits scenario_session) =
     [ Query "orders" Insert (OrderRow joao_silva (lit "1234") []);
       Query "order_items" Insert (OrderItemRows [(77%Z, lit "o1")]);
       Toast Success successMessage ].
Proof.
  destruct (@commit_resets_session store_commits scenario_session 77
              scenario_session_validated eq_refl eq_refl)
    as (Hc & Hn & _ & _ & _ & _ & _ & Heff).
  rewrite Hc, Hn, Heff. repeat split.
Defined.

(* ===================================================================== *)
(** * The highlighted day *)
(* ===================================================================== *)

(** C10.  For a day of the week in 0..6 at the first render, the current
    day of the session is in 1..6 in every state the session reaches;
    Sunday (0) is mapped to 6, so on Sunday the highlighted section is
    Saturday's, and on every day exactly one section is highlighted. *)
Theorem currentDay_in_range (today : Date) (evs : list event) :
  (0 <= getDay today <= 6)%Z ->
  (1 <= currentDay (run today evs) <= 6)%Z
  /\ (getDay today = 0%Z ->
      currentDay (run today evs) = 6%Z /\ highlighted (run today evs) = [6%Z])
  /\ (getDay today <> 0%Z -> currentDay (run today evs) = getDay today)
  /\ highlighted (run today evs) = [currentDay (run today evs)].
Proof.
  intros Hday.
  assert (Hcur : currentDay (run today evs) = initialCurrentDay today).
  { apply (run_invariant (fun st => currentDay st = initialCurrentDay today)).
    - reflexivity.
    - intros st e H. now rewrite step_currentDay. }
  unfold highlighted. rewrite Hcur. unfold initialCurrentDay.
  destruct (getDay today =? 0)%Z eqn:E.
  - apply Z.eqb_eq in E. repeat split; try lia; try reflexivity.
  - apply Z.eqb_neq in E.
    assert (Hcases : (getDay today = 1 \/ getDay today = 2 \/ getDay today = 3
                      \/ getDay today = 4 \/ getDay today = 5
                      \/ getDay today = 6)%Z) by lia.
    repeat split; try lia;
      destruct Hcases as [H | [H | [H | [H | [H | H] ] ] ] ]; rewrite H; reflexivity.
Qed.

Lemma currentDay_in_range_witness :
  currentDay (run (sunday 10 0) [OpenCart]) = 6%Z
  /\ highlighted (run (sunday 10 0) [OpenCart]) = [6%Z].
Proof.
  apply (@currentDay_in_range (sunday 10 0) [OpenCart]).
  - simpl. lia.
  - reflexivity.
Defined.

(* ===================================================================== *)
(** * Registration and notes validators *)
(* ===================================================================== *)

(** X1.  [validateRegistration s] is true if and only if [s] has exactly
    four code units and each is an ASCII digit 0-9. *)
Theorem validateRegistration_characterised (s : str) :
  validateRegistration s = true <->
  List.length s = 4%nat /\ Forall (fun c => (48 <= c <= 57)%N) s.
Proof.
  rewrite validateRegistration_spec, andb_true_iff, Nat.eqb_eq.
  rewrite forallb_forall, Forall_forall.
  split; intros [Hl Hd]; (split; [exact Hl|]); intros c Hc;
    specialize (Hd c Hc); unfold digit, in_range in *.
  - apply andb_true_iff in Hd. rewrite !N.leb_le in Hd. exact Hd.
  - apply andb_true_iff. now rewrite !N.leb_le.
Qed.

Lemma observations_class_cases (c : char) :
  observations_class c = true <->
  letter c = true \/ digit c = true \/ space c = true \/ punct c = true.
Proof.
  unfold observations_class. rewrite !orb_true_iff. tauto.
Qed.

(** X2.  [validateObservations s] is true if and only if every code unit
    of [s] is a letter of the pattern, an ASCII digit, a white-space
    character or one of [. , ! ? -]; the empty string is valid, and a
    rejected string has a code unit outside these. *)
Theorem validateObservations_characterised (s : str) :
  (validateObservations s = true <->
   Forall (fun c => letter c = true \/ digit c = true
                    \/ space c = true \/ punct c = true) s)
  /\ validateObservations [] = true
  /\ (validateObservations s = false ->
      exists c, In c s /\ letter c = false /\ digit c = false
                /\ space c = false /\ punct c = false).
Proof.
  rewrite validateObservations_spec. split; [|split].
  - rewrite forallb_forall, Forall_forall.
    split; intros H c Hc; apply observations_class_cases; auto.
  - reflexivity.
  - intros H. destruct (forallb_false_witness _ _ H) as [c [Hc Hp]].
    exists c. split; [exact Hc|]. unfold observations_class in Hp.
    rewrite !orb_false_iff in Hp. tauto.
Qed.

Lemma validateObservations_characterised_witness :
  exists c, In c (lit "sem sal @casa") /\ letter c = false /\ digit c = false
            /\ space c = false /\ punct c = false.
Proof.
  apply (validateObservations_characterised (lit "sem sal @casa")).
  reflexivity.
Defined.

Lemma forallb_impl (A : Type) (p q : A -> bool) (l : list A) :
  (forall x, p x = true -> q x = true) ->
  forallb p l = true -> forallb q l = true.
Proof.
  intros Hpq. rewrite !forallb_forall. auto.
Qed.

(** X3.  Every valid name and every valid registration is also valid as
    notes, and no string is both a valid name and a valid registration. *)
Theorem validators_related (s : str) :
  (validateName s = true -> validateObservations s = true)
  /\ (validateRegistration s = true -> validateObservations s = true)
  /\ (validateName s = true -> validateRegistration s = false).
Proof.
  rewrite validateName_spec, validateRegistration_spec,
    validateObservations_spec.
  split; [|split].
  - intros H. apply andb_true_iff in H. destruct H as [_ H].
    revert H. apply forallb_impl. intros c Hc. unfold observations_class.
    unfold name_class in Hc. apply orb_true_iff in Hc.
    destruct Hc as [-> | ->]; simpl; now rewrite ?orb_true_r.
  - intros H. apply andb_true_iff in H. destruct H as [_ H].
    revert H. apply forallb_impl. intros c Hc. unfold observations_class.
    rewrite Hc. now rewrite orb_true_r.
  - intros H. apply andb_true_iff in H. destruct H as [Hne Hall].
    destruct s as [|c s]; [discriminate Hne|].
    simpl in Hall. apply andb_true_iff in Hall. destruct Hall as [Hc _].
    apply name_class_not_digit in Hc. simpl. rewrite Hc.
    apply andb_false_r.
Qed.

Lemma validators_related_witness :
  validateObservations joao_silva = true
  /\ validateObservations (lit "1234") = true
  /\ validateRegistration joao_silva = false.
Proof.
  destruct (validators_related joao_silva) as (Hn & _ & Hd).
  destruct (validators_related (lit "1234")) as (_ & Hr & _).
  split; [|split]; [apply Hn | apply Hr | apply Hd]; reflexivity.
Defined.

(* ===================================================================== *)
(** * Typing into the fields *)
(* ===================================================================== *)

Lemma nameChangeAccepts_spec (s : str) :
  nameChangeAccepts s = forallb name_class s.
Proof.
  unfold nameChangeAccepts. rewrite validateName_spec.
  destruct s; reflexivity.
Qed.

Lemma observationsChangeAccepts_spec (s : str) :
  observationsChangeAccepts s = forallb observations_class s.
Proof.
  unfold observationsChangeAccepts. rewrite validateObservations_spec.
  destruct s; reflexivity.
Qed.

(** X4.  A draft that a keystroke check accepts stays accepted when
    characters are deleted from its end or its start, for each of the
    three fields: whatever can be submitted can be typed, and erased, one
    character at a time. *)
Theorem keystroke_checks_closed (s t : str) :
  (nameChangeAccepts (s ++ t) = true ->
   nameChangeAccepts s = true /\ nameChangeAccepts t = true)
  /\ (registrationChangeAccepts (s ++ t) = true ->
      registrationChangeAccepts s = true /\ registrationChangeAccepts t = true)
  /\ (observationsChangeAccepts (s ++ t) = true ->
      observationsChangeAccepts s = true /\ observationsChangeAccepts t = true).
Proof.
  rewrite !nameChangeAccepts_spec, !observationsChangeAccepts_spec,
    !registrationChangeAccepts_spec, !forallb_app.
  split; [|split]; intros H.
  - now apply andb_true_iff in H.
  - apply andb_true_iff in H. destruct H as [Hl Hd].
    apply andb_true_iff in Hd. destruct Hd as [Hs Ht].
    apply Nat.leb_le in Hl. rewrite length_app in Hl.
    rewrite Hs, Ht, !andb_true_r. split; apply Nat.leb_le; lia.
  - now apply andb_true_iff in H.
Qed.

Lemma keystroke_checks_closed_witness :
  nameChangeAccepts (lit "Jo") = true
  /\ registrationChangeAccepts (lit "12") = true
  /\ observationsChangeAccepts (lit "sem") = true.
Proof.
  destruct (keystroke_checks_closed (lit "Jo") (lit "ao")) as (Hn & _ & _).
  destruct (keystroke_checks_closed (lit "12") (lit "34")) as (_ & Hr & _).
  destruct (keystroke_checks_closed (lit "sem") (lit " sal.")) as (_ & _ & Ho).
  split; [|split]; [apply Hn | apply Hr | apply Ho]; reflexivity.
Defined.

Lemma step_fields_well_formed (st : state) (e : event) :
  fields_well_formed st -> fields_well_formed (step st e).
Proof.
  unfold fields_well_formed. intros H.
  destruct e; simpl; try exact H.
  - destruct data; exact H.
  - unfold checkStoreStatus. destruct (settings st); [case_if|]; exact H.
  - unfold handleNameChange.
    destruct (nameChangeAccepts value) eqn:E; simpl; [|exact H].
    rewrite E. tauto.
  - unfold handleRegistrationChange.
    destruct (registrationChangeAccepts value) eqn:E; simpl; [|exact H].
    rewrite E. tauto.
  - unfold handleObservationsChange.
    destruct (observationsChangeAccepts value) eqn:E; simpl; [|exact H].
    rewrite E. tauto.
  - unfold addToCart. repeat case_if; exact H.
  - destruct (handleSubmitOrder_state db st) as [-> | ->];
      [exact H | repeat split].
Qed.

Lemma run_fields_well_formed (today : Date) (evs : list event) :
  fields_well_formed (run today evs).
Proof.
  apply run_invariant.
  - repeat split.
  - apply step_fields_well_formed.
Qed.

(** X5.  In every state the session reaches, the name is empty or a valid
    name, the registration is a string of at most four digits, and the
    notes are valid notes: the handlers never store a draft they
    rejected. *)
Theorem fields_hold_accepted_drafts (today : Date) (evs : list event) :
  (userName (run today evs) = []
   \/ validateName (userName (run today evs)) = true)
  /\ ((List.length (registration (run today evs)) <= 4)%nat
      /\ forallb digit (registration (run today evs)) = true)
  /\ validateObservations (observations (run today evs)) = true.
Proof.
  destruct (run_fields_well_formed today evs) as (Hn & Hr & Ho).
  split; [|split].
  - unfold nameChangeAccepts in Hn. apply orb_true_iff in Hn.
    destruct Hn as [Hn|Hn]; [left; now apply falsy_nil | now right].
  - rewrite registrationChangeAccepts_spec in Hr.
    apply andb_true_iff in Hr. now rewrite Nat.leb_le in Hr.
  - unfold observationsChangeAccepts in Ho. apply orb_true_iff in Ho.
    destruct Ho as [Ho|Ho]; [|exact Ho].
    apply falsy_nil in Ho. now rewrite Ho.
Qed.

(* ===================================================================== *)
(** * More on the store status *)
(* ===================================================================== *)

(** X6.  The status check changes nothing but the open flag: the cart, the
    window, the three fields, the panel flag and the current day are as
    before; and with the window loaded the new flag does not depend on the
    old one. *)
Theorem checkStoreStatus_frame (now : Date) (st : state) :
  checkStoreStatus now st =
    setIsStoreOpen (isStoreOpen (checkStoreStatus now st)) st
  /\ (forall b : bool,
        settings st <> None ->
        isStoreOpen (checkStoreStatus now (setIsStoreOpen b st)) =
        isStoreOpen (checkStoreStatus now st)).
Proof.
  unfold checkStoreStatus. split.
  - destruct (settings st); [case_if; reflexivity|].
    now destruct st.
  - intros b H. simpl. destruct (settings st); [|congruence].
    case_if; reflexivity.
Qed.

Lemma checkStoreStatus_frame_witness :
  isStoreOpen
    (checkStoreStatus (monday 15 0) (setIsStoreOpen false scenario_session)) =
  isStoreOpen (checkStoreStatus (monday 15 0) scenario_session).
Proof.
  apply (checkStoreStatus_frame (monday 15 0) scenario_session).
  discriminate.
Defined.

(** X7.  A window whose opening time is later than its closing time, such
    as 22:00-02:00, never opens the store: the check sets the flag to
    false at every time of every day. *)
Theorem inverted_window_never_open
    (W : AdminSettings) (now : Date) (st : state)
    (oh om ch cm : Z) (os cs : option str) :
  settings st = Some W ->
  (0 <= oh < 24)%Z -> (0 <= om < 60)%Z ->
  (0 <= ch < 24)%Z -> (0 <= cm < 60)%Z ->
  opening_time W = time_of_day oh om os ->
  closing_time W = time_of_day ch cm cs ->
  (ch * 60 + cm < oh * 60 + om)%Z ->
  isStoreOpen (checkStoreStatus now st) = false.
Proof.
  intros HW Hoh Hom Hch Hcm Hopen Hclose Hinv.
  unfold checkStoreStatus. rewrite HW.
  case_if; [reflexivity|]. rewrite Hopen, Hclose.
  destruct (@time_of_day_read oh om os) as [E1 E2]; try lia.
  destruct (@time_of_day_read ch cm cs) as [E3 E4]; try lia.
  cbv zeta in E1, E2, E3, E4. rewrite E1, E2, E3, E4. simpl.
  apply andb_false_iff. rewrite !Z.leb_gt. lia.
Qed.

Lemma inverted_window_never_open_witness :
  isStoreOpen
    (checkStoreStatus (monday 23 0)
       (fetchSettings (Some window_22_02) scenario_session)) = false.
Proof.
  apply (@inverted_window_never_open window_22_02 (monday 23 0)
           (fetchSettings (Some window_22_02) scenario_session)
           22 0 2 0 None None);
    try reflexivity; lia.
Defined.

(** X8.  If the opening time or the closing time of the loaded window has
    no [":"], its minutes are [undefined], the bound is NaN and the check
    sets the flag to false at every time of every day. *)
Theorem window_without_colon_closed
    (W : AdminSettings) (now : Date) (st : state) :
  settings st = Some W ->
  forallb (fun c => negb (N.eqb c colon)) (opening_time W) = true
  \/ forallb (fun c => negb (N.eqb c colon)) (closing_time W) = true ->
  isStoreOpen (checkStoreStatus now st) = false.
Proof.
  intros HW H. unfold checkStoreStatus. rewrite HW.
  case_if; [reflexivity|]. simpl.
  destruct H as [H|H]; rewrite (@split_last_piece _ _ H); simpl.
  - destruct (Number (opening_time W)); reflexivity.
  - destruct (Number (closing_time W)); simpl; [|apply andb_false_r].
    apply andb_false_r.
Qed.

Lemma window_without_colon_closed_witness :
  isStoreOpen
    (checkStoreStatus (monday 10 0)
       (fetchSettings (Some window_no_colon) scenario_session)) = false.
Proof.
  apply (@window_without_colon_closed window_no_colon (monday 10 0)
           (fetchSettings (Some window_no_colon) scenario_session)).
  - reflexivity.
  - left. reflexivity.
Defined.

Lemma step_settings_loaded (st : state) (e : event) :
  settings st <> None -> settings (step st e) <> None.
Proof.
  intros H. destruct e; simpl; try exact H.
  - destruct data; simpl; [discriminate | exact H].
  - unfold checkStoreStatus. destruct (settings st) eqn:E; [|congruence].
    case_if; simpl; now rewrite E.
  - unfold handleNameChange. case_if; exact H.
  - unfold handleRegistrationChange. case_if; exact H.
  - unfold handleObservationsChange. case_if; exact H.
  - unfold addToCart. repeat case_if; exact H.
  - destruct (handleSubmitOrder_state db st) as [-> | ->]; exact H.
Qed.

Lemma run_app (today : Date) (evs evs' : list event) :
  run today (evs ++ evs') = fold_left step evs' (run today evs).
Proof. unfold run. apply fold_left_app. Qed.

(** X9.  Once the window is loaded it stays loaded: no event of the
    session, a fetch that returns no row included, makes it absent
    again. *)
Theorem settings_stay_loaded (today : Date) (evs evs' : list event) :
  settings (run today evs) <> None ->
  settings (run today (evs ++ evs')) <> None.
Proof.
  rewrite run_app. generalize (run today evs).
  induction evs' as [|e evs' IH]; simpl; intros st H; [exact H|].
  apply IH. now apply step_settings_loaded.
Qed.

Lemma settings_stay_loaded_witness :
  settings (run (monday 8 0)
              ([SettingsFetched (Some window_09_14)]
               ++ [SettingsFetched None; Tick (monday 9 0)])) <> None.
Proof.
  apply (@settings_stay_loaded (monday 8 0)
           [SettingsFetched (Some window_09_14)]
           [SettingsFetched None; Tick (monday 9 0)]).
  discriminate.
Defined.

Lemma step_cart_needs_open (st : state) (e : event) :
  (cart st <> [] -> settings st <> None) ->
  closed_until_loaded st ->
  cart (step st e) <> [] -> settings (step st e) <> None.
Proof.
  intros H Hc. destruct e; simpl; try exact H.
  - destruct data; simpl; [discriminate | exact H].
  - unfold checkStoreStatus. destruct (settings st) eqn:E; [|now rewrite E].
    case_if; simpl; rewrite E; discriminate.
  - unfold handleNameChange. case_if; exact H.
  - unfold handleRegistrationChange. case_if; exact H.
  - unfold handleObservationsChange. case_if; exact H.
  - unfold addToCart. destruct (isStoreOpen st) eqn:Eo; simpl; [|exact H].
    case_if; simpl; [exact H|].
    intros _ Hs. apply Hc in Hs. congruence.
  - intros Hf. apply H. intros Hnil. apply Hf. now rewrite Hnil.
  - destruct (handleSubmitOrder_state db st) as [-> | ->];
      [exact H | simpl; congruence].
Qed.

(** X10.  The cart is empty as long as the window has not been loaded: an
    entry can only be added while the flag is open, and the flag is closed
    until the window is there. *)
Theorem cart_empty_until_loaded (today : Date) (evs : list event) :
  settings (run today evs) = None -> cart (run today evs) = [].
Proof.
  assert (H : (cart (run today evs) <> [] -> settings (run today evs) <> None)
              /\ closed_until_loaded (run today evs)).
  { apply (run_invariant
             (fun st => (cart st <> [] -> settings st <> None)
                        /\ closed_until_loaded st)).
    - split; [intros H; now elim H | intros _; reflexivity].
    - intros st e [H1 H2]. split.
      + now apply step_cart_needs_open.
      + now apply step_closed_until_loaded. }
  destruct H as [H _]. intros Hs.
  destruct (cart (run today evs)) eqn:E; [reflexivity|].
  exfalso. apply H; [discriminate | exact Hs].
Qed.

Lemma cart_empty_until_loaded_witness :
  cart (run (monday 10 0) [Tick (monday 10 0); AddToCart feijoada]) = [].
Proof.
  apply (@cart_empty_until_loaded (monday 10 0)
           [Tick (monday 10 0); AddToCart feijoada]).
  reflexivity.
Defined.

(* ===================================================================== *)
(** * Removing from the cart *)
(* ===================================================================== *)

Lemma filter_all (A : Type) (p : A -> bool) (l : list A) :
  (forall x, In x l -> p x = true) -> filter p l = l.
Proof.
  induction l as [|a l IH]; simpl; intros H; [reflexivity|].
  rewrite (H a (or_introl eq_refl)), IH; auto.
Qed.

Lemma str_eqb_neq (a b : str) : str_eqb a b = false <-> a <> b.
Proof. unfold str_eqb. destruct (str_eq_dec a b); split; congruence. Qed.

Lemma remove_absent (id : str) (c : list CartItem) :
  ~ In id (ids c) ->
  filter (fun item => negb (str_eqb (item_id item) id)) c = c.
Proof.
  intros H. apply filter_all. intros x Hx.
  apply negb_true_iff, str_eqb_neq. intros E. apply H.
  unfold ids. rewrite in_map_iff. eauto.
Qed.

(** X11.  Removing an id that is not in the cart leaves the cart as it
    is; the handler reports success all the same and never an error, and
    it does not look at the open flag. *)
Theorem removeFromCart_absent (id : str) (st : state) :
  ~ In id (ids (cart st)) ->
  fst (removeFromCart id st) = st
  /\ snd (removeFromCart id st) = [Toast Success "Item removido do carrinho"].
Proof.
  intros H. unfold removeFromCart. simpl.
  rewrite (@remove_absent _ _ H). split; [now destruct st | reflexivity].
Qed.

Lemma removeFromCart_absent_witness :
  fst (removeFromCart (lit "x1") scenario_session) = scenario_session.
Proof.
  apply (@removeFromCart_absent (lit "x1") scenario_session).
  simpl. intros [H|[]]. discriminate H.
Defined.

Lemma remove_unique (id : str) (c : list CartItem) :
  NoDup (ids c) -> In id (ids c) ->
  S (List.length
       (filter (fun item => negb (str_eqb (item_id item) id)) c)) =
  List.length c.
Proof.
  induction c as [|x c IH]; simpl; intros Hnd Hin; [contradiction|].
  inversion Hnd as [|? ? Hx Hc]; subst.
  destruct (str_eqb (item_id x) id) eqn:E; simpl.
  - apply str_eqb_eq in E. subst id. now rewrite (@remove_absent _ _ Hx).
  - f_equal. apply IH; [exact Hc|].
    destruct Hin as [Hin|Hin]; [|exact Hin].
    apply str_eqb_neq in E. contradiction.
Qed.

(** X12.  In every state the session reaches, removing an id that is in
    the cart takes out exactly one entry; after a removal the id is not in
    the cart, and the entries with other ids are kept, in their order. *)
Theorem removeFromCart_present (today : Date) (evs : list event) (id : str) :
  let st := run today evs in
  ~ In id (ids (cart (fst (removeFromCart id st))))
  /\ cart (fst (removeFromCart id st)) =
     filter (fun item => negb (str_eqb (item_id item) id)) (cart st)
  /\ (forall other : str, other <> id ->
        filter (fun item => str_eqb (item_id item) other)
          (cart (fst (removeFromCart id st))) =
        filter (fun item => str_eqb (item_id item) other) (cart st))
  /\ (In id (ids (cart st)) ->
      S (List.length (cart (fst (removeFromCart id st)))) =
      List.length (cart st)).
Proof.
  intros st. simpl. split; [|split; [|split]].
  - unfold ids. rewrite in_map_iff. intros [x [Hx Hin]].
    apply filter_In in Hin. destruct Hin as [_ Hin].
    apply negb_true_iff, str_eqb_neq in Hin. contradiction.
  - reflexivity.
  - intros other Hne. induction (cart st) as [|x c IH]; [reflexivity|].
    simpl. destruct (str_eqb (item_id x) id) eqn:E; simpl.
    + apply str_eqb_eq in E.
      assert (str_eqb (item_id x) other = false) as ->
          by (apply str_eqb_neq; congruence).
      exact IH.
    + now rewrite IH.
  - apply remove_unique. unfold st. apply run_invariant.
    + constructor.
    + apply step_unique_ids.
Qed.

Lemma removeFromCart_present_witness :
  S (List.length
       (cart (fst (removeFromCart (lit "x1")
                     (run (monday 10 0)
                        [SettingsFetched (Some window_09_14);
                         Tick (monday 10 0); AddToCart feijoada]))))) =
  List.length
    (cart (run (monday 10 0)
             [SettingsFetched (Some window_09_14);
              Tick (monday 10 0); AddToCart feijoada])).
Proof.
  apply (@removeFromCart_present (monday 10 0)
           [SettingsFetched (Some window_09_14);
            Tick (monday 10 0); AddToCart feijoada] (lit "x1")).
  simpl. left. reflexivity.
Defined.

(** X13.  Adding a dish that is not in the cart while the store is open
    and then removing its id gives back the cart as it was before. *)
Theorem add_then_remove (dish : Dish) (st : state) :
  isStoreOpen st = true ->
  ~ In (dish_id dish) (ids (cart st)) ->
  cart (fst (removeFromCart (dish_id dish) (fst (addToCart dish st)))) =
  cart st.
Proof.
  intros Ho Hn. unfold addToCart. rewrite Ho. simpl.
  assert (existsb (fun item => str_eqb (item_id item) (dish_id dish)) (cart st)
          = false) as ->.
  { apply not_true_is_false. now rewrite in_cart_existsb. }
  simpl. rewrite filter_app. simpl.
  assert (str_eqb (dish_id dish) (dish_id dish) = true) as ->
      by now apply str_eqb_eq.
  simpl. rewrite app_nil_r. now apply remove_absent.
Qed.

Lemma add_then_remove_witness :
  cart (fst (removeFromCart (lit "x1")
               (fst (addToCart feijoada scenario_session)))) =
  cart scenario_session.
Proof.
  apply (@add_then_remove feijoada scenario_session).
  - reflexivity.
  - simpl. intros [H|[]]. discriminate H.
Defined.

(** X14.  [addToCart] shows exactly one toast.  It is the success toast if
    and only if the store is open and the id is not yet in the cart, and
    then the cart has one entry more and the panel is open; with an error
    toast the panel flag is as before. *)
Theorem addToCart_toast (dish : Dish) (st : state) :
  (exists kind message, snd (addToCart dish st) = [Toast kind message])
  /\ (snd (addToCart dish st) = [Toast Success "Item adicionado ao carrinho"]
      <-> isStoreOpen st = true /\ ~ In (dish_id dish) (ids (cart st)))
  /\ (snd (addToCart dish st) = [Toast Success "Item adicionado ao carrinho"] ->
      List.length (cart (fst (addToCart dish st))) = S (List.length (cart st))
      /\ isCartOpen (fst (addToCart dish st)) = true)
  /\ (snd (addToCart dish st) <> [Toast Success "Item adicionado ao carrinho"] ->
      isCartOpen (fst (addToCart dish st)) = isCartOpen st).
Proof.
  unfold addToCart. rewrite <- in_cart_existsb.
  destruct (isStoreOpen st); simpl;
    [destruct (existsb _ (cart st)); simpl|];
    repeat split; eauto; try discriminate; try tauto;
    try (rewrite length_app; simpl; lia);
    try (intros [H1 H2]; first [discriminate H1 | now elim H2]);
    try (intros H; now elim H).
Qed.

Lemma addToCart_toast_witness :
  List.length (cart (fst (addToCart feijoada scenario_session))) =
  S (List.length (cart scenario_session))
  /\ isCartOpen (fst (addToCart feijoada scenario_session)) = true.
Proof.
  apply (addToCart_toast feijoada scenario_session).
  reflexivity.
Defined.

(* ===================================================================== *)
(** * More on the submission *)
(* ===================================================================== *)

(** X15.  When the checks pass and the insert of the order header fails,
    the state is unchanged, the header insert is the only query sent (no
    item rows are sent), and the one toast is the generic failure
    message. *)
Theorem header_failure_sends_no_items (db : store) (st : state) :
  validated st ->
  orders_insert db = Failed ->
  fst (handleSubmitOrder db st) = st
  /\ snd (handleSubmitOrder db st) =
     [ Query "orders" Insert
         (OrderRow (userName st) (registration st) (observations st));
       Toast Error failureMessage ]
  /\ List.length (filter is_query (snd (handleSubmitOrder db st))) = 1%nat.
Proof.
  intros Hv Hh. rewrite (handleSubmitOrder_validated db Hv), Hh.
  repeat split.
Qed.

Lemma header_failure_sends_no_items_witness :
  snd (handleSubmitOrder
         {| orders_insert := Failed; order_items_insert := Ok tt |}
         scenario_session) =
  [ Query "orders" Insert (OrderRow joao_silva (lit "1234") []);
    Toast Error failureMessage ].
Proof.
  apply (@header_failure_sends_no_items
           {| orders_insert := Failed; order_items_insert := Ok tt |}
           scenario_session scenario_session_validated eq_refl).
Defined.

(** X16.  In a state the session reaches, when the checks pass and the
    header insert returns an id, the second query is the insert of the
    item rows: one row per cart entry, in the order of the cart, each with
    the returned order id, and no dish id twice. *)
Theorem item_rows_follow_cart
    (today : Date) (evs : list event) (db : store) (order_id : Z) :
  validated (run today evs) ->
  orders_insert db = Ok order_id ->
  exists items : list (Z * str),
    nth_error (snd (handleSubmitOrder db (run today evs))) 1 =
      Some (Query "order_items" Insert (OrderItemRows items))
    /\ List.map snd items = ids (cart (run today evs))
    /\ List.map fst items = repeat order_id (List.length (cart (run today evs)))
    /\ NoDup (List.map snd items).
Proof.
  intros Hv Hh.
  exists (List.map (fun item => (order_id, item_id item)) (cart (run today evs))).
  assert (Hids : List.map snd
                   (List.map (fun item => (order_id, item_id item))
                      (cart (run today evs))) = ids (cart (run today evs))).
  { unfold ids. rewrite map_map. reflexivity. }
  split; [|split; [exact Hids|split]].
  - rewrite (handleSubmitOrder_validated db Hv), Hh. simpl.
    destruct (order_items_insert db); reflexivity.
  - rewrite map_map. simpl.
    generalize (cart (run today evs)). intros c.
    induction c as [|x c IH]; simpl; [reflexivity | now rewrite IH].
  - rewrite Hids. apply run_invariant.
    + constructor.
    + apply step_unique_ids.
Qed.

Lemma item_rows_follow_cart_witness :
  exists items : list (Z * str),
    nth_error
      (snd (handleSubmitOrder store_commits
              (run (monday 10 0)
                 [SettingsFetched (Some window_09_14); Tick (monday 10 0);
                  AddToCart feijoada; NameChange joao_silva;
                  RegistrationChange (lit "1234")]))) 1 =
      Some (Query "order_items" Insert (OrderItemRows items))
    /\ List.map snd items = [lit "x1"].
Proof.
  destruct (@item_rows_follow_cart (monday 10 0)
              [SettingsFetched (Some window_09_14); Tick (monday 10 0);
               AddToCart feijoada; NameChange joao_silva;
               RegistrationChange (lit "1234")] store_commits 77)
    as (items & H1 & H2 & _).
  - repeat split; try discriminate. now left.
  - reflexivity.
  - exists items. split; [exact H1 | exact H2].
Defined.

(** X17.  The submission handler does not look at the open flag: with the
    flag set to any value it sends the same queries, shows the same toast
    and makes the same changes to the other cells.  Only the disabled
    submit button keeps a closed store from receiving orders. *)
Theorem submission_ignores_open_flag (db : store) (st : state) (b : bool) :
  handleSubmitOrder db (setIsStoreOpen b st) =
  (setIsStoreOpen b (fst (handleSubmitOrder db st)),
   snd (handleSubmitOrder db st)).
Proof.
  unfold handleSubmitOrder. simpl. repeat case_if; reflexivity.
Qed.

(** X18.  Every submission shows exactly one toast and sends at most two
    queries, none of them a delete.  The session is reset only together
    with the success toast and after both inserts were sent; in every
    other case the state is unchanged. *)
Theorem submission_outcomes (db : store) (st : state) :
  (exists kind message,
     filter is_toast (snd (handleSubmitOrder db st)) = [Toast kind message])
  /\ (List.length (filter is_query (snd (handleSubmitOrder db st))) <= 2)%nat
  /\ existsb is_delete (snd (handleSubmitOrder db st)) = false
  /\ ((fst (handleSubmitOrder db st) = resetSession st
       /\ filter is_toast (snd (handleSubmitOrder db st)) =
          [Toast Success successMessage]
       /\ List.length (filter is_query (snd (handleSubmitOrder db st))) = 2%nat)
      \/ (fst (handleSubmitOrder db st) = st
          /\ exists message,
               filter is_toast (snd (handleSubmitOrder db st)) =
               [Toast Error message])).
Proof.
  unfold handleSubmitOrder.
  repeat case_if; simpl; repeat split; eauto; right; eauto.
Qed.

(** X19.  Right after a committed submission, a second submission sends
    nothing to the store: the fields were reset, so it stops at the name
    check. *)
Theorem resubmit_after_commit (db db' : store) (st : state) (order_id : Z) :
  validated st ->
  orders_insert db = Ok order_id ->
  order_items_insert db = Ok tt ->
  handleSubmitOrder db' (fst (handleSubmitOrder db st)) =
  (resetSession st, [Toast Error nameMessage]).
Proof.
  intros Hv Hh Hi. rewrite (handleSubmitOrder_validated db Hv), Hh, Hi.
  reflexivity.
Qed.

Lemma resubmit_after_commit_witness :
  handleSubmitOrder store_commits
    (fst (handleSubmitOrder store_commits scenario_session)) =
  (resetSession scenario_session, [Toast Error nameMessage]).
Proof.
  apply (@resubmit_after_commit store_commits store_commits
           scenario_session 77 scenario_session_validated eq_refl eq_refl).
Defined.

(** X20.  After a submission whose item insert failed, a retry sends the
    header insert again with the same row, and if both inserts of the
    retry succeed the session is reset: the store has received the header
    twice. *)
Theorem retry_resends_header
    (db db' : store) (st : state) (order_id order_id' : Z) :
  validated st ->
  orders_insert db = Ok order_id -> order_items_insert db = Failed ->
  orders_insert db' = Ok order_id' -> order_items_insert db' = Ok tt ->
  let header :=
    Query "orders" Insert
      (OrderRow (userName st) (registration st) (observations st)) in
  hd_error (snd (handleSubmitOrder db st)) = Some header
  /\ hd_error (snd (handleSubmitOrder db' (fst (handleSubmitOrder db st)))) =
     Some header
  /\ fst (handleSubmitOrder db' (fst (handleSubmitOrder db st))) =
     resetSession st.
Proof.
  intros Hv H1 H2 H3 H4.
  rewrite (handleSubmitOrder_validated db Hv), H1, H2. simpl.
  rewrite (handleSubmitOrder_validated db' Hv), H3, H4. simpl.
  repeat split.
Qed.

Lemma retry_resends_header_witness :
  hd_error
    (snd (handleSubmitOrder store_commits
            (fst (handleSubmitOrder store_fails_on_items scenario_session)))) =
  Some (Query "orders" Insert (OrderRow joao_silva (lit "1234") [])).
Proof.
  apply (@retry_resends_header store_fails_on_items store_commits
           scenario_session 77 77 scenario_session_validated
           eq_refl eq_refl eq_refl eq_refl).
Defined.

(** X21.  In a state the session reaches with the submit button enabled,
    a submission can fail its checks in two ways only: the name is empty,
    or the registration has fewer than four digits.  The notes message and
    the empty-cart message cannot appear, and otherwise the header insert
    is sent. *)
Theorem enabled_submission (today : Date) (evs : list event) (db : store) :
  let st := run today evs in
  submitDisabled st = false ->
  (userName st = []
   /\ handleSubmitOrder db st = (st, [Toast Error nameMessage]))
  \/ (userName st <> []
      /\ (List.length (registration st) < 4)%nat
      /\ handleSubmitOrder db st = (st, [Toast Error registrationMessage]))
  \/ (validated st
      /\ hd_error (snd (handleSubmitOrder db st)) =
         Some (Query "orders" Insert
                 (OrderRow (userName st) (registration st) (observations st)))).
Proof.
  intros st Hen.
  destruct (run_fields_well_formed today evs) as (Hn & Hr & Ho).
  fold st in Hn, Hr, Ho.
  unfold submitDisabled in Hen. apply orb_false_iff in Hen.
  destruct Hen as [_ Hc].
  unfold nameChangeAccepts in Hn. unfold observationsChangeAccepts in Ho.
  rewrite registrationChangeAccepts_spec in Hr.
  apply andb_true_iff in Hr. destruct Hr as [Hlen Hdig].
  apply Nat.leb_le in Hlen.
  destruct (userName st) as [|c n] eqn:En.
  - left. split; [reflexivity|]. unfold handleSubmitOrder. now rewrite En.
  - right. simpl in Hn.
    destruct (validateRegistration (registration st)) eqn:Evr.
    + right. rewrite <- En.
      assert (Hv : validated st).
      { unfold validated. rewrite En. repeat split; try discriminate; auto.
        - intros E. rewrite E in Evr. discriminate Evr.
        - apply orb_true_iff in Ho. destruct Ho as [Ho|Ho]; [left|now right].
          now apply falsy_nil.
        - intros E. rewrite E in Hc. discriminate Hc. }
      split; [exact Hv|].
      rewrite (handleSubmitOrder_validated db Hv). simpl.
      destruct (orders_insert db); [destruct (order_items_insert db)|];
        reflexivity.
    + left. split; [discriminate|].
      rewrite validateRegistration_spec, Hdig, andb_true_r in Evr.
      apply Nat.eqb_neq in Evr. split; [lia|].
      unfold handleSubmitOrder. rewrite En. simpl. rewrite Hn. simpl.
      rewrite validateRegistration_spec, Hdig, andb_true_r.
      apply Nat.eqb_neq in Evr. rewrite Evr. simpl.
      now rewrite orb_true_r.
Qed.

Lemma enabled_submission_witness :
  (userName (run (monday 10 0)
               [SettingsFetched (Some window_09_14); Tick (monday 10 0);
                AddToCart feijoada]) = []
   /\ handleSubmitOrder store_commits
        (run (monday 10 0)
           [SettingsFetched (Some window_09_14); Tick (monday 10 0);
            AddToCart feijoada]) =
      (run (monday 10 0)
         [SettingsFetched (Some window_09_14); Tick (monday 10 0);
          AddToCart feijoada], [Toast Error nameMessage])).
Proof.
  destruct (@enabled_submission (monday 10 0)
              [SettingsFetched (Some window_09_14); Tick (monday 10 0);
               AddToCart feijoada] store_commits eq_refl)
    as [H | [[H _] | [[H _] _] ] ].
  - exact H.
  - now elim H.
  - now elim H.
Defined.

(* ===================================================================== *)
(** * Dishes by day *)
(* ===================================================================== *)

Lemma dishesOfDay_cons (i : Z) (a : Dish) (l : list Dish) :
  dishesOfDay i (a :: l) =
  if (day_of_week a =? i)%Z then a :: dishesOfDay i l else dishesOfDay i l.
Proof. reflexivity. Qed.

Lemma groupDishesByDay_eq (dishes : list Dish) :
  groupDishesByDay dishes =
  [ (1, dishesOfDay 1 dishes); (2, dishesOfDay 2 dishes);
    (3, dishesOfDay 3 dishes); (4, dishesOfDay 4 dishes);
    (5, dishesOfDay 5 dishes); (6, dishesOfDay 6 dishes) ]%Z.
Proof. reflexivity. Qed.

Lemma renderedDishes_eq (dishes : list Dish) :
  renderedDishes dishes =
  dishesOfDay 1 dishes ++ dishesOfDay 2 dishes ++ dishesOfDay 3 dishes
  ++ dishesOfDay 4 dishes ++ dishesOfDay 5 dishes ++ dishesOfDay 6 dishes.
Proof.
  unfold renderedDishes. rewrite groupDishesByDay_eq. simpl.
  now rewrite app_nil_r.
Qed.

(** X22.  The object that [groupDishesByDay] returns has the six keys 1 to
    6, whatever the dishes are.  The value of a key is the list of the
    dishes of that day in their order, empty when the day has none, and
    every other key, Sunday's 0 included, is [undefined]. *)
Theorem groupDishesByDay_lookup (dishes : list Dish) (day : Z) :
  List.map fst (groupDishesByDay dishes) = [1; 2; 3; 4; 5; 6]%Z
  /\ object_get day (groupDishesByDay dishes) =
     if ((1 <=? day) && (day <=? 6))%Z
     then Some (filter (fun dish => (day_of_week dish =? day)%Z) dishes)
     else None.
Proof.
  rewrite groupDishesByDay_eq. split; [reflexivity|].
  unfold object_get, dishesOfDay.
  destruct (Z.eqb_spec 1 day) as [<-|H1]; [reflexivity|].
  destruct (Z.eqb_spec 2 day) as [<-|H2]; [reflexivity|].
  destruct (Z.eqb_spec 3 day) as [<-|H3]; [reflexivity|].
  destruct (Z.eqb_spec 4 day) as [<-|H4]; [reflexivity|].
  destruct (Z.eqb_spec 5 day) as [<-|H5]; [reflexivity|].
  destruct (Z.eqb_spec 6 day) as [<-|H6]; [reflexivity|].
  destruct (Z.leb_spec 1 day); destruct (Z.leb_spec day 6); simpl;
    try reflexivity; lia.
Qed.

Lemma menu_day_cases (d : Dish) :
  menu_day d = true <->
  (day_of_week d = 1 \/ day_of_week d = 2 \/ day_of_week d = 3
   \/ day_of_week d = 4 \/ day_of_week d = 5 \/ day_of_week d = 6)%Z.
Proof.
  unfold menu_day. rewrite andb_true_iff, !Z.leb_le. lia.
Qed.

Lemma In_dishesOfDay (i : Z) (d : Dish) (l : list Dish) :
  In d (dishesOfDay i l) <-> In d l /\ day_of_week d = i.
Proof.
  unfold dishesOfDay. rewrite filter_In, Z.eqb_eq. tauto.
Qed.

(** X23.  A column of the page shows a dish if and only if the dish is in
    the fetched list and its day is one of 1 to 6: a dish of day 0
    (Sunday) or of any other day is never shown, and no dish is shown
    twice or dropped, so the column has as many dishes as the list has
    with a day from 1 to 6. *)
Theorem renderedDishes_members (dishes : list Dish) :
  (forall d : Dish,
     In d (renderedDishes dishes) <-> In d dishes /\ menu_day d = true)
  /\ List.length (renderedDishes dishes) =
     List.length (filter menu_day dishes).
Proof.
  rewrite renderedDishes_eq. split.
  - intros d. rewrite !in_app_iff, !In_dishesOfDay, menu_day_cases. tauto.
  - induction dishes as [|a l IH]; [reflexivity|].
    rewrite !dishesOfDay_cons. simpl filter.
    rewrite !length_app in IH.
    destruct (menu_day a) eqn:Em.
    + apply menu_day_cases in Em.
      destruct Em as [E | [E | [E | [E | [E | E] ] ] ] ]; rewrite E; simpl;
        rewrite !length_app; simpl; rewrite ?length_app; simpl; lia.
    + assert (Hn : ~ (day_of_week a = 1 \/ day_of_week a = 2
                      \/ day_of_week a = 3 \/ day_of_week a = 4
                      \/ day_of_week a = 5 \/ day_of_week a = 6)%Z).
      { rewrite <- menu_day_cases, Em. discriminate. }
      repeat match goal with
             | |- context [(day_of_week a =? ?k)%Z] =>
                 destruct (Z.eqb_spec (day_of_week a) k); [exfalso; tauto|]
             end.
      rewrite !length_app. lia.
Qed.

Lemma dishesOfDay_below (i d : Z) (l : list Dish) :
  Forall (fun x => (d <= day_of_week x)%Z) l -> (i < d)%Z ->
  dishesOfDay i l = [].
Proof.
  intros H Hi. induction H as [|x l Hx Hl IH]; [reflexivity|].
  rewrite dishesOfDay_cons.
  destruct (Z.eqb_spec (day_of_week x) i); [lia | exact IH].
Qed.

(** X24.  When the fetched list is in ascending order of day, as the
    queries of [fetchDishes] ask, a column shows the dishes of the days 1
    to 6 in exactly the order of the list; if every dish has a day from 1
    to 6 the column is the list itself. *)
Theorem renderedDishes_in_order (dishes : list Dish) :
  ascending_days dishes ->
  renderedDishes dishes = filter menu_day dishes
  /\ (forallb menu_day dishes = true -> renderedDishes dishes = dishes).
Proof.
  intros Hs.
  assert (H : renderedDishes dishes = filter menu_day dishes).
  { rewrite renderedDishes_eq.
    induction Hs as [|a l Hs IH Ha]; [reflexivity|].
    rewrite !dishesOfDay_cons. simpl filter.
    destruct (menu_day a) eqn:Em.
    - apply menu_day_cases in Em.
      destruct Em as [E | [E | [E | [E | [E | E] ] ] ] ]; rewrite E in *;
        simpl;
        rewrite ?(@dishesOfDay_below 1 _ l Ha) in * by lia;
        rewrite ?(@dishesOfDay_below 2 _ l Ha) in * by lia;
        rewrite ?(@dishesOfDay_below 3 _ l Ha) in * by lia;
        rewrite ?(@dishesOfDay_below 4 _ l Ha) in * by lia;
        rewrite ?(@dishesOfDay_below 5 _ l Ha) in * by lia;
        simpl in *; now rewrite IH.
    - assert (Hn : ~ (day_of_week a = 1 \/ day_of_week a = 2
                      \/ day_of_week a = 3 \/ day_of_week a = 4
                      \/ day_of_week a = 5 \/ day_of_week a = 6)%Z).
      { rewrite <- menu_day_cases, Em. discriminate. }
      repeat match goal with
             | |- context [(day_of_week a =? ?k)%Z] =>
                 destruct (Z.eqb_spec (day_of_week a) k); [exfalso; tauto|]
             end.
      exact IH. }
  split; [exact H|].
  intros Hall. rewrite H. apply filter_all.
  now rewrite forallb_forall in Hall.
Qed.

Lemma renderedDishes_in_order_witness :
  renderedDishes [sunday_special; feijoada; omelete] = [feijoada; omelete].
Proof.
  apply (@renderedDishes_in_order [sunday_special; feijoada; omelete]).
  repeat constructor; simpl; lia.
Defined.

(* ===================================================================== *)
(** * The auth callback and [getOrders] *)
(* ===================================================================== *)

Module AuthFacts.

Import Auth.

Lemma getItem_removeItem (k k' : str) (s : storage) :
  getItem k (removeItem k' s) =
  if str_eqb k k' then None else getItem k s.
Proof.
  unfold getItem, removeItem.
  induction s as [|[key v] s IH]; simpl.
  - now destruct (str_eqb k k').
  - destruct (str_eqb key k') eqn:E1; simpl.
    + apply str_eqb_eq in E1. subst key.
      destruct (str_eqb k' k) eqn:E2; [|exact IH].
      apply str_eqb_eq in E2. subst k'.
      assert (str_eqb k k = true) as Hk by now apply str_eqb_eq.
      rewrite Hk in *. exact IH.
    + destruct (str_eqb key k) eqn:E2; [|exact IH].
      apply str_eqb_eq in E2. subst key. now rewrite E1.
Qed.

Lemma onAuthStateChange_other_keys (event : str) (now : Z) (a : auth_state)
    (k : str) :
  k <> storageKey -> k <> tokenKey ->
  getItem k (localStorage (onAuthStateChange event now a)) =
  getItem k (localStorage a).
Proof.
  intros H1 H2. apply str_eqb_neq in H1. apply str_eqb_neq in H2.
  unfold onAuthStateChange. repeat case_if; simpl; try reflexivity.
  now rewrite !getItem_removeItem, H1, H2.
Qed.

Lemma onAuthStateChange_last (event : str) (now : Z) (a : auth_state) :
  (lastAuthEvent a <= lastAuthEvent (onAuthStateChange event now a))%Z.
Proof.
  unfold onAuthStateChange, AUTH_EVENT_THROTTLE.
  destruct (Z.ltb_spec 5000 (now - lastAuthEvent a)); simpl; lia.
Qed.

End AuthFacts.

(** X25.  After an auth event that the callback processed at time [t], a
    SIGNED_OUT that arrives no more than 5000 ms later is dropped: the
    storage, with the two auth items if they are there, and the time of
    the last processed event stay as they were. *)
Theorem throttled_sign_out_dropped
    (event : str) (t t' : Z) (a : Auth.auth_state) :
  (Auth.AUTH_EVENT_THROTTLE < t - Auth.lastAuthEvent a)%Z ->
  (t' - t <= Auth.AUTH_EVENT_THROTTLE)%Z ->
  Auth.onAuthStateChange (lit "SIGNED_OUT") t'
    (Auth.onAuthStateChange event t a) =
  Auth.onAuthStateChange event t a.
Proof.
  intros H1 H2. unfold Auth.onAuthStateChange at 1 3.
  apply Z.ltb_lt in H1. rewrite H1. simpl.
  apply Z.ltb_ge in H2. unfold Auth.onAuthStateChange.
  rewrite H1. simpl. now rewrite H2.
Qed.

Lemma throttled_sign_out_dropped_witness :
  Auth.getItem Auth.storageKey
    (Auth.localStorage
       (Auth.onAuthStateChange (lit "SIGNED_OUT") 1003000
          (Auth.onAuthStateChange (lit "SIGNED_IN") 1000000
             (Auth.auth_initial stored_session)))) =
  Some (lit "session").
Proof.
  rewrite (@throttled_sign_out_dropped (lit "SIGNED_IN") 1000000 1003000
             (Auth.auth_initial stored_session));
    [reflexivity | reflexivity | discriminate].
Defined.

(** X26.  A SIGNED_OUT that the callback processes removes the two auth
    items from the storage: afterwards neither key is there, and every
    other key has the value it had. *)
Theorem processed_sign_out_clears_tokens
    (now : Z) (a : Auth.auth_state) (k : str) :
  (Auth.AUTH_EVENT_THROTTLE < now - Auth.lastAuthEvent a)%Z ->
  let a' := Auth.onAuthStateChange (lit "SIGNED_OUT") now a in
  Auth.getItem Auth.storageKey (Auth.localStorage a') = None
  /\ Auth.getItem Auth.tokenKey (Auth.localStorage a') = None
  /\ (k <> Auth.storageKey -> k <> Auth.tokenKey ->
      Auth.getItem k (Auth.localStorage a') =
      Auth.getItem k (Auth.localStorage a))
  /\ Auth.lastAuthEvent a' = now.
Proof.
  intros H a'. split; [|split; [|split]].
  - unfold a', Auth.onAuthStateChange. apply Z.ltb_lt in H. rewrite H.
    simpl. now rewrite !AuthFacts.getItem_removeItem.
  - unfold a', Auth.onAuthStateChange. apply Z.ltb_lt in H. rewrite H.
    simpl. now rewrite !AuthFacts.getItem_removeItem.
  - apply AuthFacts.onAuthStateChange_other_keys.
  - unfold a', Auth.onAuthStateChange. apply Z.ltb_lt in H. now rewrite H.
Qed.

Lemma processed_sign_out_clears_tokens_witness :
  Auth.getItem (lit "theme")
    (Auth.localStorage
       (Auth.onAuthStateChange (lit "SIGNED_OUT") 1000000
          (Auth.auth_initial stored_session))) = Some (lit "dark")
  /\ Auth.getItem Auth.tokenKey
       (Auth.localStorage
          (Auth.onAuthStateChange (lit "SIGNED_OUT") 1000000
             (Auth.auth_initial stored_session))) = None.
Proof.
  destruct (@processed_sign_out_clears_tokens 1000000
              (Auth.auth_initial stored_session) (lit "theme") eq_refl)
    as (_ & Ht & Hk & _).
  split; [|exact Ht].
  rewrite Hk; [reflexivity | discriminate | discriminate].
Defined.

(** X27.  Over any sequence of auth events, at any times, the callback
    never touches a storage key other than its two auth keys, and the time
    of the last processed event never decreases and is never negative,
    even if the clock runs backwards. *)
Theorem auth_run_invariants
    (s : Auth.storage) (evs evs' : list (str * Z)) (k : str) :
  (k <> Auth.storageKey -> k <> Auth.tokenKey ->
   Auth.getItem k (Auth.localStorage (Auth.auth_run s evs)) = Auth.getItem k s)
  /\ (0 <= Auth.lastAuthEvent (Auth.auth_run s evs))%Z
  /\ (Auth.lastAuthEvent (Auth.auth_run s evs)
      <= Auth.lastAuthEvent (Auth.auth_run s (evs ++ evs')))%Z.
Proof.
  assert (Hmono : forall l a,
            (Auth.lastAuthEvent a <=
             Auth.lastAuthEvent
               (fold_left (fun a ev => Auth.onAuthStateChange (fst ev) (snd ev) a)
                  l a))%Z).
  { induction l as [|ev l IH]; intros a; simpl; [lia|].
    etransitivity; [|apply IH]. apply AuthFacts.onAuthStateChange_last. }
  split; [|split].
  - intros H1 H2. unfold Auth.auth_run.
    change (Auth.getItem k s)
      with (Auth.getItem k (Auth.localStorage (Auth.auth_initial s))).
    generalize (Auth.auth_initial s).
    induction evs as [|ev l IH]; intros a; simpl; [reflexivity|].
    rewrite IH. now apply AuthFacts.onAuthStateChange_other_keys.
  - unfold Auth.auth_run.
    apply (Z.le_trans _ (Auth.lastAuthEvent (Auth.auth_initial s)));
      [simpl; lia | apply Hmono].
  - unfold Auth.auth_run. rewrite fold_left_app. apply Hmono.
Qed.

Lemma auth_run_invariants_witness :
  Auth.getItem (lit "theme")
    (Auth.localStorage
       (Auth.auth_run stored_session
          [(lit "SIGNED_IN", 1000000%Z); (lit "SIGNED_OUT", 2000000%Z)])) =
  Some (lit "dark").
Proof.
  rewrite (proj1 (@auth_run_invariants stored_session
                    [(lit "SIGNED_IN", 1000000%Z); (lit "SIGNED_OUT", 2000000%Z)]
                    [] (lit "theme")));
    [reflexivity | discriminate | discriminate].
Defined.

(** X28.  [getOrders] sends a query to the store if and only if
    [getUser] resolved without error and with a user, and the query is
    then the one select filtered by [user_id] equal to the id of that
    user.  Without a signed-in user the result is null and the only
    effect is one error on the console. *)
Theorem getOrders_needs_user
    (auth : Auth.outcome Auth.user_response)
    (db : Auth.outcome Auth.orders_response) :
  (existsb Auth.is_select (snd (Auth.getOrders auth db)) = true <->
   exists r id, auth = Auth.Resolved r
                /\ Auth.user_error r = None
                /\ Auth.user_data r = Some (Some id))
  /\ (forall r id,
        auth = Auth.Resolved r -> Auth.user_error r = None ->
        Auth.user_data r = Some (Some id) ->
        filter Auth.is_select (snd (Auth.getOrders auth db)) =
        [Auth.SelectOrders "user_name, observations" "user_id" id])
  /\ (existsb Auth.is_select (snd (Auth.getOrders auth db)) = false ->
      fst (Auth.getOrders auth db) = None
      /\ exists message,
           snd (Auth.getOrders auth db) = [Auth.ConsoleError message]).
Proof.
  unfold Auth.getOrders, Auth.signed_in_user.
  destruct auth as [r|reason].
  - destruct (Auth.user_error r) as [e|] eqn:Ee;
      [|destruct (Auth.user_data r) as [[id|]|] eqn:Ed].
    + repeat split; simpl; try discriminate; eauto.
      * intros (r' & id & H & He & _). inversion H; subst. congruence.
      * intros r' id H He. inversion H; subst. congruence.
    + destruct db as [o|reason]; [destruct (Auth.orders_error o)|]; simpl;
        (split; [split; [intros _; eauto|reflexivity]|]);
        (split; [|discriminate]);
        intros r' id' H _ Hd; inversion H; subst; congruence.
    + repeat split; simpl; try discriminate; eauto.
      * intros (r' & id & H & _ & Hd). inversion H; subst. congruence.
      * intros r' id H _ Hd. inversion H; subst. congruence.
    + repeat split; simpl; try discriminate; eauto.
      * intros (r' & id & H & _ & Hd). inversion H; subst. congruence.
      * intros r' id H _ Hd. inversion H; subst. congruence.
  - repeat split; simpl; try discriminate; eauto.
    intros (r' & id & H & _). discriminate H.
Qed.

Lemma getOrders_needs_user_witness :
  filter Auth.is_select
    (snd (Auth.getOrders
            (Auth.Resolved {| Auth.user_data := Some (Some (lit "u1"));
                              Auth.user_error := None |})
            (Auth.Rejected "offline"))) =
  [Auth.SelectOrders "user_name, observations" "user_id" (lit "u1")].
Proof.
  apply (proj1 (proj2 (@getOrders_needs_user
           (Auth.Resolved {| Auth.user_data := Some (Some (lit "u1"));
                             Auth.user_error := None |})
           (Auth.Rejected "offline")))
           {| Auth.user_data := Some (Some (lit "u1"));
              Auth.user_error := None |} (lit "u1"));
    reflexivity.
Defined.

(** X29.  [getOrders] returns rows only when [getUser] gave a user and the
    select resolved without error; the rows are then the data of the
    select and they are logged.  In every other case it returns null: a
    rejected promise or an error answer of either call never escapes. *)
Theorem getOrders_result
    (auth : Auth.outcome Auth.user_response)
    (db : Auth.outcome Auth.orders_response)
    (found : list Auth.order_row) :
  fst (Auth.getOrders auth db) = Some found ->
  exists r id o,
    auth = Auth.Resolved r /\ Auth.signed_in_user r = Some id
    /\ db = Auth.Resolved o /\ Auth.orders_error o = None
    /\ Auth.orders_data o = Some found
    /\ snd (Auth.getOrders auth db) =
       [ Auth.SelectOrders "user_name, observations" "user_id" id;
         Auth.ConsoleLog "Pedidos:" (Some found) ].
Proof.
  unfold Auth.getOrders.
  destruct auth as [r|reason]; [|discriminate].
  destruct (Auth.signed_in_user r) as [id|] eqn:Es; [|discriminate].
  destruct db as [o|reason]; [|discriminate].
  destruct (Auth.orders_error o) eqn:Ee; [discriminate|].
  simpl. intros H. exists r, id, o. rewrite H. repeat split; auto.
Qed.

Lemma getOrders_result_witness :
  exists r id o,
    Auth.Resolved {| Auth.user_data := Some (Some (lit "u1"));
                     Auth.user_error := None |} = Auth.Resolved r
    /\ Auth.signed_in_user r = Some id
    /\ Auth.Resolved {| Auth.orders_data := Some [(joao_silva, [])];
                        Auth.orders_error := None |} = Auth.Resolved o
    /\ Auth.orders_error o = None.
Proof.
  destruct (@getOrders_result
              (Auth.Resolved {| Auth.user_data := Some (Some (lit "u1"));
                                Auth.user_error := None |})
              (Auth.Resolved {| Auth.orders_data := Some [(joao_silva, [])];
                                Auth.orders_error := None |})
              [(joao_silva, [])] eq_refl)
    as (r & id & o & H1 & H2 & H3 & H4 & _).
  exists r, id, o. auto.
Defined.
